(** * Smart Attendance Tracker: attendance ledger and low-attendance alerts

    A shallow embedding of the attendance-relevant code of the repository:

    - [Legacy]: the single-file sqlite3 application, [app.py], over the
      schema of [database.py];
    - [Orm]: the SQLAlchemy application, [models.py], [services.py] and
      [routes/faculty.py].

    Tables are lists of rows in insertion order.  Identifiers and counts are
    Python integers ([Z]); calendar dates are proleptic ordinals
    ([date.toordinal()], so that ISO-8601 text and [date] objects order the
    same way); statuses are the stored strings.  Python's true division
    yields a float, modelled by an exact rational ([Q]): the comparisons of
    a percentage with [0] and with [75] come out as they do on IEEE doubles
    for every row count a table can hold.
    The surrogate [id] of an attendance row and its [remarks]/timestamp
    columns are read by none of the modelled operations and are left out.
    HTTP form fields arrive already parsed ([int(...)],
    [date.fromisoformat(...)]); session and role checks are outside. *)

From Stdlib Require Import ZArith QArith List String Bool Lia.
Import ListNotations.
Local Open Scope Z_scope.

(** ** Python numbers *)

(** [0] (an [int]) and [0.0] (a [float]) are different objects that compare
    equal; both constructors are kept so that the two can be told apart
    where the source could. *)
Inductive pynum : Type :=
| PyInt (z : Z)
| PyFloat (q : Q).

Definition num_val (n : pynum) : Q :=
  match n with
  | PyInt z => inject_Z z
  | PyFloat q => q
  end.

Definition Qlt_bool (x y : Q) : bool := negb (Qle_bool y x).

(** Python [a < b], [a > b] and [a == b] on numbers. *)
Definition py_lt (a b : pynum) : bool := Qlt_bool (num_val a) (num_val b).
Definition py_gt (a b : pynum) : bool := py_lt b a.
Definition py_eq (a b : pynum) : bool := Qeq_bool (num_val a) (num_val b).

(** Python [(present / total) * 100] on two integers, [total <> 0]. *)
Definition percent_of (present total : Z) : pynum :=
  PyFloat ((inject_Z present / inject_Z total) * inject_Z 100)%Q.

(** Python [x in xs] on a list of identifiers.  The forms carry them as the
    decimal strings the pages render, which are equal exactly when the
    integers are. *)
Definition py_in (x : Z) (xs : list Z) : bool := existsb (Z.eqb x) xs.

(** [query.count()]. *)
Definition count {A : Type} (rows : list A) : Z := Z.of_nat (List.length rows).

(** ** Rows *)

Module User.
Record t : Type := mk
  { id : Z;
    email : string;
    full_name : string;
    role : string;
    is_active : bool }.
End User.

Module Course.
Record t : Type := mk
  { id : Z;
    name : string }.
End Course.

Module Attendance.
Record t : Type := mk
  { student_user_id : Z;
    course_id : Z;
    date : Z;
    status : string }.

(** The columns of [UNIQUE(student_user_id, course_id, date)]. *)
Definition has_key (student course day : Z) (a : t) : bool :=
  (student_user_id a =? student) && (course_id a =? course) && (date a =? day).

Definition same_key (a b : t) : bool :=
  has_key (student_user_id a) (course_id a) (date a) b.

Definition is_present (a : t) : bool := String.eqb (status a) "Present".
End Attendance.

(** One call of [send_attendance_alert(student.email, student.full_name,
    course.name, percentage)].  [alert_user] is the [id] of the student
    being processed when the call is made; it is part of the trace only. *)
Record AlertCall : Type := mkAlertCall
  { alert_user : Z;
    student_email : string;
    student_name : string;
    course_name : string;
    alert_percentage : pynum }.

(** The two lists of the attendance form: [all_students] (everybody shown
    on the form) and [present_students] (the boxes ticked). *)
Record TakeForm : Type := mkTakeForm
  { form_course_id : Z;
    form_date : Z;
    all_students : list Z;
    present_students : list Z }.

(** The two parallel lists of the modification form. *)
Record ModifyForm : Type := mkModifyForm
  { modify_course_id : Z;
    modify_date : Z;
    student_ids : list Z;
    statuses : list string }.

(** Exceptions the modelled code can meet. *)
Inductive exn : Type :=
| IntegrityError
| IndexError
| OperationalError.

Inductive result (A : Type) : Type :=
| Ok (a : A)
| Raise (e : exn).
Arguments Ok {A} a.
Arguments Raise {A} e.

(** The status the form assigns to a listed student. *)
Definition form_status (student_id : Z) (present_student_ids : list Z) : string :=
  if py_in student_id present_student_ids then "Present"%string else "Absent"%string.

(** ** app.py *)

Module Legacy.

Record Db : Type := mkDb
  { users : list User.t;
    courses : list Course.t;
    attendance : list Attendance.t }.

Definition set_attendance (db : Db) (rows : list Attendance.t) : Db :=
  {| users := users db; courses := courses db; attendance := rows |}.

(** [INSERT OR REPLACE INTO attendance (...) VALUES (...)]: rows that
    collide on the unique key are deleted, then the row is inserted. *)
Definition insert_or_replace (r : Attendance.t) (rows : list Attendance.t)
  : list Attendance.t :=
  filter (fun a => negb (Attendance.same_key r a)) rows ++ [r].

(** The [for student_id in all_student_ids] loop of [take_attendance]. *)
Fixpoint take_attendance_loop (course_id attendance_date : Z)
    (all_student_ids present_student_ids : list Z)
    (rows : list Attendance.t) : list Attendance.t :=
  match all_student_ids with
  | [] => rows
  | student_id :: rest =>
      let status := form_status student_id present_student_ids in
      take_attendance_loop course_id attendance_date rest present_student_ids
        (insert_or_replace
           (Attendance.mk student_id course_id attendance_date status) rows)
  end.

Definition PERIOD_START_DATE : Z := 739457. (* "2025-07-25" *)
Definition PERIOD_END_DATE : Z := 739471.   (* "2025-08-08" *)

(** The rows counted by [stats_query]. *)
Definition stats_rows (db : Db) (student_id course_id : Z) : list Attendance.t :=
  filter (fun a =>
            (Attendance.student_user_id a =? student_id)
            && (Attendance.course_id a =? course_id)
            && ((PERIOD_START_DATE <=? Attendance.date a)
                && (Attendance.date a <=? PERIOD_END_DATE)))
         (attendance db).

Definition stats_total (db : Db) (student_id course_id : Z) : Z :=
  count (stats_rows db student_id course_id).

Definition stats_present (db : Db) (student_id course_id : Z) : Z :=
  count (filter Attendance.is_present (stats_rows db student_id course_id)).

(** The body of the [for student in all_students] loop: the calls of
    [send_attendance_alert] it makes, in order. *)
Definition alert_student (db : Db) (course_id : Z) (course : Course.t)
    (student : User.t) : list AlertCall :=
  let total := stats_total db (User.id student) course_id in
  let present := stats_present db (User.id student) course_id in
  if 0 <? total then
    let percentage := percent_of present total in
    if py_lt percentage (PyInt 75) then
      [mkAlertCall (User.id student) (User.email student)
         (User.full_name student) (Course.name course) percentage]
    else []
  else [].

Fixpoint alert_loop (db : Db) (course_id : Z) (course : Course.t)
    (all_students : list User.t) : list AlertCall :=
  match all_students with
  | [] => []
  | student :: rest =>
      alert_student db course_id course student
        ++ alert_loop db course_id course rest
  end.

(** [check_and_send_alerts(course_id)]: writes nothing; the result is the
    trace of notifier calls. *)
Definition check_and_send_alerts (db : Db) (course_id : Z) : list AlertCall :=
  match find (fun c => Course.id c =? course_id) (courses db) with
  | None => []
  | Some course =>
      let all_students :=
        filter (fun u => String.eqb (User.role u) "student") (users db) in
      alert_loop db course_id course all_students
  end.

(** The POST branch of [take_attendance]: the committed database and the
    notifier calls of the alerting pass that follows the commit. *)
Definition take_attendance (db : Db) (form : TakeForm) : Db * list AlertCall :=
  let db' :=
    set_attendance db
      (take_attendance_loop (form_course_id form) (form_date form)
         (all_students form) (present_students form) (attendance db)) in
  (db', check_and_send_alerts db' (form_course_id form)).

(** The schema's [CHECK(status IN ('Present', 'Absent'))]. *)
Definition status_allowed (s : string) : bool :=
  String.eqb s "Present" || String.eqb s "Absent".

(** [UPDATE attendance SET status = ? WHERE student_user_id = ? AND
    course_id = ? AND date = ?]. *)
Definition update_status (new_status : string) (student_id course_id day : Z)
    (rows : list Attendance.t) : result (list Attendance.t) :=
  if existsb (Attendance.has_key student_id course_id day) rows
     && negb (status_allowed new_status)
  then Raise IntegrityError
  else
    Ok (map (fun a =>
               if Attendance.has_key student_id course_id day a
               then Attendance.mk (Attendance.student_user_id a)
                      (Attendance.course_id a) (Attendance.date a) new_status
               else a) rows).

(** The [for i in range(len(student_ids))] loop of [modify_attendance];
    [i] is the index of the head of [ids]. *)
Fixpoint modify_attendance_loop (course_id day : Z) (statuses : list string)
    (i : nat) (ids : list Z) (rows : list Attendance.t)
  : result (list Attendance.t) :=
  match ids with
  | [] => Ok rows
  | student_id :: rest =>
      match nth_error statuses i with
      | None => Raise IndexError
      | Some new_status =>
          match update_status new_status student_id course_id day rows with
          | Raise e => Raise e
          | Ok rows' =>
              modify_attendance_loop course_id day statuses (S i) rest rows'
          end
      end
  end.

(** The POST branch of [modify_attendance].  An exception leaves the
    handler before [db.commit()], so the database keeps its old rows. *)
Definition modify_attendance (db : Db) (form : ModifyForm)
  : result unit * Db * list AlertCall :=
  match modify_attendance_loop (modify_course_id form) (modify_date form)
          (statuses form) 0%nat (student_ids form) (attendance db) with
  | Raise e => (Raise e, db, [])
  | Ok rows' =>
      let db' := set_attendance db rows' in
      (Ok tt, db', check_and_send_alerts db' (modify_course_id form))
  end.

End Legacy.

(** ** models.py, services.py, routes/faculty.py *)

Module Notification.
(** [message] is the f-string [Your attendance for {course.name} is
    {percentage:.2f}% (below {threshold}%)], kept as the two values
    interpolated from the loop. *)
Record t : Type := mk
  { user_id : Z;
    title : string;
    message_course : string;
    message_percentage : pynum;
    type : string }.
End Notification.

(** The settings read from [Config]; [config.py] is not among the sources,
    so their values are parameters of the model. *)
Record Config : Type := mkConfig
  { ATTENDANCE_THRESHOLD : pynum;
    ALERT_PERIOD_DAYS : Z }.

Module Orm.

Record Db : Type := mkDb
  { users : list User.t;
    courses : list Course.t;
    attendance : list Attendance.t;
    notifications : list Notification.t }.

Definition set_attendance (db : Db) (rows : list Attendance.t) : Db :=
  {| users := users db; courses := courses db; attendance := rows;
     notifications := notifications db |}.

Definition add_notifications (db : Db) (pending : list Notification.t) : Db :=
  {| users := users db; courses := courses db; attendance := attendance db;
     notifications := notifications db ++ pending |}.

(** The points at which the modelled code talks to the database. *)
Inductive StoreOp : Type :=
| GetCourse
| ListStudents
| CountAttendance (student : Z)
| Summarize
| Commit.

(** What surrounds a call: the configuration, [date.today()] and which
    store operations succeed. *)
Record Env : Type := mkEnv
  { cfg : Config;
    today : Z;
    store_up : StoreOp -> bool }.

(** [EmailService.send_attendance_alert] seen from its caller: [true] when
    the message was handed to the SMTP server, [false] when credentials are
    missing or the transport raised (the exception is caught inside). *)
Definition Notifier : Type := AlertCall -> bool.

(** A store operation: its value, or the driver's exception. *)
Definition run {A : Type} (env : Env) (op : StoreOp) (v : A) : result A :=
  if store_up env op then Ok v else Raise OperationalError.

(** [if start_date: query = query.filter(Attendance.date >= start_date)]
    and the same for [end_date]; a [date] is always truthy. *)
Definition in_window (start_date end_date : option Z) (a : Attendance.t) : bool :=
  match start_date with
  | Some s => s <=? Attendance.date a
  | None => true
  end
  && match end_date with
     | Some e => Attendance.date a <=? e
     | None => true
     end.

(** The query built by [User.get_attendance_percentage]. *)
Definition percentage_query (db : Db) (self : Z) (course_id : Z)
    (start_date end_date : option Z) : list Attendance.t :=
  filter (in_window start_date end_date)
    (filter (fun a => (Attendance.student_user_id a =? self)
                      && (Attendance.course_id a =? course_id))
       (attendance db)).

(** [User.get_attendance_percentage(self, course_id, start_date, end_date)]. *)
Definition get_attendance_percentage (db : Db) (self : Z) (course_id : Z)
    (start_date end_date : option Z) : pynum :=
  let query := percentage_query db self course_id start_date end_date in
  let total_classes := count query in
  let present_classes := count (filter Attendance.is_present query) in
  if total_classes =? 0 then PyInt 0
  else percent_of present_classes total_classes.

Definition alert_call (student : User.t) (course : Course.t) (percentage : pynum)
  : AlertCall :=
  mkAlertCall (User.id student) (User.email student) (User.full_name student)
    (Course.name course) percentage.

Definition alert_notification (student : User.t) (course : Course.t)
    (percentage : pynum) : Notification.t :=
  Notification.mk (User.id student) "Low Attendance Alert" (Course.name course)
    percentage "attendance_alert".

(** The [for student in students] loop of
    [AttendanceService.check_and_send_alerts]: the notifications added to
    the session (or the exception that left the loop) and the notifier
    calls made so far.  [email_sent] is bound and never read. *)
Fixpoint alert_loop (env : Env) (send_attendance_alert : Notifier) (db : Db)
    (course_id : Z) (course : Course.t)
    (start_date end_date : option Z) (students : list User.t)
  : result (list Notification.t) * list AlertCall :=
  match students with
  | [] => (Ok [], [])
  | student :: rest =>
      match run env (CountAttendance (User.id student))
              (get_attendance_percentage db (User.id student) course_id
                 start_date end_date) with
      | Raise e => (Raise e, [])
      | Ok percentage =>
          if py_lt percentage (ATTENDANCE_THRESHOLD (cfg env))
             && py_gt percentage (PyInt 0)
          then
            let email_sent :=
              send_attendance_alert (alert_call student course percentage) in
            let notification := alert_notification student course percentage in
            let '(r, sent) :=
              alert_loop env send_attendance_alert db course_id course
                start_date end_date rest in
            (match r with
             | Ok added => Ok (notification :: added)
             | Raise e => Raise e
             end,
             alert_call student course percentage :: sent)
          else alert_loop env send_attendance_alert db course_id course
                 start_date end_date rest
      end
  end.

(** [if not start_date or not end_date:] the window defaults to the
    [ALERT_PERIOD_DAYS] days that end today. *)
Definition alert_window (env : Env) (start_date end_date : option Z)
  : option Z * option Z :=
  match start_date, end_date with
  | Some s, Some e => (Some s, Some e)
  | _, _ => (Some (today env - ALERT_PERIOD_DAYS (cfg env)), Some (today env))
  end.

(** The [try:] block of [check_and_send_alerts]: the notifications
    committed (or the exception raised) and the notifier calls made. *)
Definition alerts_body (env : Env) (send_attendance_alert : Notifier) (db : Db)
    (course_id : Z) (start_date end_date : option Z)
  : result (list Notification.t) * list AlertCall :=
  match run env GetCourse
          (find (fun c => Course.id c =? course_id) (courses db)) with
  | Raise e => (Raise e, [])
  | Ok None => (Ok [], [])
  | Ok (Some course) =>
      let '(start_date, end_date) := alert_window env start_date end_date in
      match run env ListStudents
              (filter (fun u => String.eqb (User.role u) "student"
                                && User.is_active u) (users db)) with
      | Raise e => (Raise e, [])
      | Ok students =>
          match alert_loop env send_attendance_alert db course_id course
                  start_date end_date students with
          | (Raise e, sent) => (Raise e, sent)
          | (Ok added, sent) =>
              match run env Commit tt with
              | Raise e => (Raise e, sent)
              | Ok _ => (Ok added, sent)
              end
          end
      end
  end.

(** What a call of [check_and_send_alerts] leaves behind: how the call
    ended, the database, the notifier calls and the [logger.error]
    lines. *)
Record PassOutcome : Type := mkPassOutcome
  { returned : result unit;
    db_after : Db;
    emails : list AlertCall;
    errors_logged : list exn }.

(** [AttendanceService.check_and_send_alerts(course_id, start_date,
    end_date)]: the [try:] block, and [except Exception as e:] with its
    [logger.error] and [db.session.rollback()]; either way control falls
    off the end of the function. *)
Definition check_and_send_alerts (env : Env) (send_attendance_alert : Notifier)
    (db : Db) (course_id : Z) (start_date end_date : option Z) : PassOutcome :=
  match alerts_body env send_attendance_alert db course_id start_date end_date with
  | (Ok added, sent) =>
      mkPassOutcome (Ok tt) (add_notifications db added) sent []
  | (Raise e, sent) =>
      mkPassOutcome (Ok tt) db sent [e]
  end.

(** [db.session.add(attendance)] followed by the INSERT issued at flush:
    the table's [UniqueConstraint('student_user_id', 'course_id', 'date')]
    rejects a second row with the same key. *)
Definition insert_row (r : Attendance.t) (rows : list Attendance.t)
  : result (list Attendance.t) :=
  if existsb (Attendance.same_key r) rows then Raise IntegrityError
  else Ok (rows ++ [r]).

(** The flush of the session's pending rows, in the order they were added. *)
Fixpoint flush (pending rows : list Attendance.t) : result (list Attendance.t) :=
  match pending with
  | [] => Ok rows
  | r :: rest =>
      match insert_row r rows with
      | Raise e => Raise e
      | Ok rows' => flush rest rows'
      end
  end.

(** The [for student_id in all_student_ids] loop of
    [routes/faculty.py: take_attendance]: the rows added to the session. *)
Fixpoint take_attendance_loop (course_id attendance_date : Z)
    (all_student_ids present_student_ids : list Z) : list Attendance.t :=
  match all_student_ids with
  | [] => []
  | student_id :: rest =>
      let status := form_status student_id present_student_ids in
      Attendance.mk student_id course_id attendance_date status
        :: take_attendance_loop course_id attendance_date rest present_student_ids
  end.

Inductive Flash : Type :=
| FlashSuccess
| FlashDanger.

Record RouteOutcome : Type := mkRouteOutcome
  { flashed : Flash;
    route_db : Db;
    route_emails : list AlertCall }.

(** The POST branch of [take_attendance]: [db.session.commit()] either
    stores every pending row or raises, and [except Exception] rolls the
    session back. *)
Definition take_attendance (env : Env) (send_attendance_alert : Notifier)
    (db : Db) (form : TakeForm) : RouteOutcome :=
  let pending :=
    take_attendance_loop (form_course_id form) (form_date form)
      (all_students form) (present_students form) in
  match flush pending (attendance db) with
  | Raise e => mkRouteOutcome FlashDanger db []
  | Ok rows' =>
      match run env Commit tt with
      | Raise e => mkRouteOutcome FlashDanger db []
      | Ok _ =>
          let pass :=
            check_and_send_alerts env send_attendance_alert (set_attendance db rows')
              (form_course_id form) None None in
          mkRouteOutcome FlashSuccess (db_after pass) (emails pass)
      end
  end.

(** [attendance = Attendance.query.filter_by(...).first()] followed by
    [attendance.status = new_status]: the first row with the key. *)
Fixpoint set_first_status (student_id course_id day : Z) (new_status : string)
    (rows : list Attendance.t) : list Attendance.t :=
  match rows with
  | [] => []
  | a :: rest =>
      if Attendance.has_key student_id course_id day a
      then Attendance.mk (Attendance.student_user_id a) (Attendance.course_id a)
             (Attendance.date a) new_status :: rest
      else a :: set_first_status student_id course_id day new_status rest
  end.

(** The [for i in range(len(student_ids))] loop of [modify_attendance];
    [statuses[i]] is read only [if attendance:]. *)
Fixpoint modify_attendance_loop (course_id day : Z) (statuses : list string)
    (i : nat) (ids : list Z) (rows : list Attendance.t)
  : result (list Attendance.t) :=
  match ids with
  | [] => Ok rows
  | student_id :: rest =>
      if existsb (Attendance.has_key student_id course_id day) rows then
        match nth_error statuses i with
        | None => Raise IndexError
        | Some new_status =>
            modify_attendance_loop course_id day statuses (S i) rest
              (set_first_status student_id course_id day new_status rows)
        end
      else modify_attendance_loop course_id day statuses (S i) rest rows
  end.

(** The POST branch of [routes/faculty.py: modify_attendance]. *)
Definition modify_attendance (env : Env) (send_attendance_alert : Notifier)
    (db : Db) (form : ModifyForm) : RouteOutcome :=
  match modify_attendance_loop (modify_course_id form) (modify_date form)
          (statuses form) 0%nat (student_ids form) (attendance db) with
  | Raise e => mkRouteOutcome FlashDanger db []
  | Ok rows' =>
      match run env Commit tt with
      | Raise e => mkRouteOutcome FlashDanger db []
      | Ok _ =>
          let pass :=
            check_and_send_alerts env send_attendance_alert (set_attendance db rows')
              (modify_course_id form) None None in
          mkRouteOutcome FlashSuccess (db_after pass) (emails pass)
      end
  end.

(** The dictionary returned by the two summary functions. *)
Record Summary : Type := mkSummary
  { total_records : Z;
    present_records : Z;
    absent_records : Z;
    attendance_rate : pynum }.

(** [Course.get_attendance_summary(self, start_date, end_date)]. *)
Definition course_get_attendance_summary (db : Db) (self : Z)
    (start_date end_date : option Z) : Summary :=
  let query :=
    filter (in_window start_date end_date)
      (filter (fun a => Attendance.course_id a =? self) (attendance db)) in
  let total_records := count query in
  let present_records := count (filter Attendance.is_present query) in
  let absent_records := total_records - present_records in
  mkSummary total_records present_records absent_records
    (if 0 <? total_records then percent_of present_records total_records
     else PyInt 0).

(** [ReportService.get_attendance_summary(course_id, start_date,
    end_date)]; [if course_id:] is false for [None] and for [0], and
    [except Exception] turns a failure into [None]. *)
Definition get_attendance_summary (env : Env) (db : Db) (course_id : option Z)
    (start_date end_date : option Z) : option Summary :=
  let query :=
    filter (in_window start_date end_date)
      (match course_id with
       | Some c =>
           if c =? 0 then attendance db
           else filter (fun a => Attendance.course_id a =? c) (attendance db)
       | None => attendance db
       end) in
  match run env Summarize query with
  | Raise e => None
  | Ok query =>
      let total_records := count query in
      let present_records := count (filter Attendance.is_present query) in
      let absent_records := total_records - present_records in
      Some (mkSummary total_records present_records absent_records
              (if 0 <? total_records
               then percent_of present_records total_records
               else PyInt 0))
  end.

End Orm.

(** ** Vocabulary of the statements *)

(** The row lies under one of the keys a form submits for a course and day. *)
Definition submitted (ids : list Z) (course_id day : Z) (a : Attendance.t) : bool :=
  py_in (Attendance.student_user_id a) ids
  && (Attendance.course_id a =? course_id)
  && (Attendance.date a =? day).

(** Two rows that differ at most in their status. *)
Definition same_columns (a b : Attendance.t) : Prop :=
  Attendance.student_user_id b = Attendance.student_user_id a
  /\ Attendance.course_id b = Attendance.course_id a
  /\ Attendance.date b = Attendance.date a.

(** How [modify_attendance] may take a row [a] to [b]: the key columns
    stay, and a row outside the submitted keys stays whole. *)
Definition modified_row (ids : list Z) (course_id day : Z) (a b : Attendance.t)
  : Prop :=
  same_columns a b /\ (submitted ids course_id day a = false -> b = a).

(** Row by row, in the stored order: nothing inserted, nothing deleted. *)
Definition modified_table (ids : list Z) (course_id day : Z)
    (rows rows' : list Attendance.t) : Prop :=
  Forall2 (modified_row ids course_id day) rows rows'.

(** The ways the [try:] block can end. *)
Inductive body_end (env : Orm.Env) (mail : Orm.Notifier) (db : Orm.Db) (c : Z)
    (sd ed : option Z) : result (list Notification.t) * list AlertCall -> Prop :=
| end_no_course :
    body_end env mail db c sd ed (Ok [], [])
| end_before_loop :
    body_end env mail db c sd ed (Raise OperationalError, [])
| end_loop (course : Course.t) (students : list User.t) r sent :
    Orm.alert_loop env mail db c course
      (fst (Orm.alert_window env sd ed)) (snd (Orm.alert_window env sd ed))
      students = (r, sent) ->
    body_end env mail db c sd ed (r, sent)
| end_commit (course : Course.t) (students : list User.t) added sent :
    Orm.alert_loop env mail db c course
      (fst (Orm.alert_window env sd ed)) (snd (Orm.alert_window env sd ed))
      students = (Ok added, sent) ->
    Orm.store_up env Orm.Commit = false ->
    body_end env mail db c sd ed (Raise OperationalError, sent).

(** ** A small school, used to run the code *)

Module Scenario.

Definition alice : User.t := User.mk 1 "alice@bit.edu" "Alice" "student" true.
Definition bob : User.t := User.mk 2 "bob@bit.edu" "Bob" "student" true.
Definition carol : User.t := User.mk 3 "carol@bit.edu" "Carol" "student" true.
Definition maths : Course.t := Course.mk 10 "Maths".

Definition monday : Z := 739460.  (* 2025-07-28 *)
Definition tuesday : Z := 739461. (* 2025-07-29 *)

(** Alice: one class attended out of two.  Bob: two classes, none attended.
    Carol: no class recorded. *)
Definition ledger : list Attendance.t :=
  [ Attendance.mk 1 10 monday "Present";
    Attendance.mk 1 10 tuesday "Absent";
    Attendance.mk 2 10 monday "Absent";
    Attendance.mk 2 10 tuesday "Absent" ].

Definition legacy_db : Legacy.Db :=
  Legacy.mkDb [alice; bob; carol] [maths] ledger.

Definition orm_db : Orm.Db :=
  Orm.mkDb [alice; bob; carol] [maths] ledger [].

(** Nobody has a row yet. *)
Definition fresh_legacy_db : Legacy.Db := Legacy.mkDb [alice; bob; carol] [maths] [].
Definition fresh_orm_db : Orm.Db := Orm.mkDb [alice; bob; carol] [maths] [] [].

(** Alice was marked absent on Monday earlier in the day. *)
Definition marked_orm_db : Orm.Db :=
  Orm.mkDb [alice; bob; carol] [maths] [Attendance.mk 1 10 monday "Absent"] [].

(** The deployment template's settings: threshold 75, period 15 days. *)
Definition config : Config := mkConfig (PyInt 75) 15.

Definition env : Orm.Env := Orm.mkEnv config Legacy.PERIOD_END_DATE (fun _ => true).

(** The store refuses the commit. *)
Definition env_commit_down : Orm.Env :=
  Orm.mkEnv config Legacy.PERIOD_END_DATE
    (fun op => match op with Orm.Commit => false | _ => true end).

Definition mail_ok : Orm.Notifier := fun _ => true.
Definition mail_down : Orm.Notifier := fun _ => false.

Definition window_start : option Z := Some Legacy.PERIOD_START_DATE.
Definition window_end : option Z := Some Legacy.PERIOD_END_DATE.

End Scenario.

(** ** Further vocabulary *)

(** The rows a form stands for: one per listed student, at the place of the
    student's last occurrence in the list. *)
Fixpoint form_rows (course_id day : Z) (ids present : list Z) : list Attendance.t :=
  match ids with
  | [] => []
  | s :: rest =>
      (if py_in s rest then []
       else [Attendance.mk s course_id day (form_status s present)])
      ++ form_rows course_id day rest present
  end.

(** The columns of the unique constraint, and a table that honours it. *)
Definition key_of (a : Attendance.t) : Z * Z * Z :=
  (Attendance.student_user_id a, Attendance.course_id a, Attendance.date a).

Definition unique_keys (rows : list Attendance.t) : Prop :=
  NoDup (map key_of rows).

(** The row with another status. *)
Definition with_status (st : string) (a : Attendance.t) : Attendance.t :=
  Attendance.mk (Attendance.student_user_id a) (Attendance.course_id a)
    (Attendance.date a) st.

(** The students the pass of services.py goes through, and its test on
    each of them. *)
Definition active_students (db : Orm.Db) : list User.t :=
  filter (fun u => String.eqb (User.role u) "student" && User.is_active u)
    (Orm.users db).

Definition window_percentage (env : Orm.Env) (db : Orm.Db) (c : Z)
    (sd ed : option Z) (u : User.t) : pynum :=
  Orm.get_attendance_percentage db (User.id u) c
    (fst (Orm.alert_window env sd ed)) (snd (Orm.alert_window env sd ed)).

Definition low_attendance (env : Orm.Env) (db : Orm.Db) (c : Z)
    (sd ed : option Z) (u : User.t) : bool :=
  py_lt (window_percentage env db c sd ed u) (ATTENDANCE_THRESHOLD (Orm.cfg env))
  && py_gt (window_percentage env db c sd ed u) (PyInt 0).

(** Whether a store operation that the pass of services.py comes to fails:
    the course query; with the course found, the roster query, the count of
    the rows of some student of the roster, or the commit. *)
Definition store_fails (env : Orm.Env) (db : Orm.Db) (course_id : Z) : bool :=
  negb (Orm.store_up env Orm.GetCourse)
  || match find (fun c => Course.id c =? course_id) (Orm.courses db) with
     | None => false
     | Some _ =>
         negb (Orm.store_up env Orm.ListStudents)
         || existsb (fun u => negb (Orm.store_up env
                                      (Orm.CountAttendance (User.id u))))
              (active_students db)
         || negb (Orm.store_up env Orm.Commit)
     end.

(** The small school on a day the store cannot count Bob's rows. *)
Module Outage.

Definition env_bob_down : Orm.Env :=
  Orm.mkEnv Scenario.config Legacy.PERIOD_END_DATE
    (fun op => match op with
               | Orm.CountAttendance 2 => false
               | _ => true
               end).

End Outage.

(** ** Reports, dashboards, notifications and accounts *)

(** [ORDER BY] and [sorted(..., key=...)]: ascending in the key.  Python's
    [sorted] keeps rows with equal keys in the order they came in; [ORDER
    BY] leaves that order open, and the model does the same there. *)
Fixpoint insert_by {A : Type} (le : A -> A -> bool) (x : A) (l : list A) : list A :=
  match l with
  | [] => [x]
  | y :: l' => if le x y then x :: y :: l' else y :: insert_by le x l'
  end.

Fixpoint sort_by {A : Type} (le : A -> A -> bool) (l : list A) : list A :=
  match l with
  | [] => []
  | x :: l' => insert_by le x (sort_by le l')
  end.

Definition date_le (a b : Attendance.t) : bool :=
  Attendance.date a <=? Attendance.date b.

(** One element of the list [get_student_attendance_trend] returns; [date]
    is kept as the date whose ISO text the code stores. *)
Record TrendPoint : Type := mkTrendPoint
  { trend_date : Z;
    trend_status : string;
    trend_present : Z }.

(** The records [get_student_attendance_trend] reads. *)
Definition trend_records (today : Z) (db : Orm.Db) (student_id course_id days : Z)
  : list Attendance.t :=
  let end_date := today in
  let start_date := end_date - days in
  sort_by date_le
    (filter (fun a => (Attendance.student_user_id a =? student_id)
                      && (Attendance.course_id a =? course_id)
                      && (start_date <=? Attendance.date a)
                      && (Attendance.date a <=? end_date))
       (Orm.attendance db)).

(** [timedelta(days=days)] raises [OverflowError] beyond 999999999 days
    either way, and a [date] lies between 0001-01-01 and 9999-12-31, whose
    ordinals are 1 and 3652059: [end_date - timedelta(days=days)] raises
    [OverflowError] when the day it would name lies outside. *)
Definition timedelta_in_range (days : Z) : bool :=
  (-999999999 <=? days) && (days <=? 999999999).

Definition date_in_range (d : Z) : bool :=
  (1 <=? d) && (d <=? 3652059).

(** [ReportService.get_student_attendance_trend(student_id, course_id,
    days)]; the window's first day is computed inside the [try], [query_ok]
    tells whether the query went through, and [except Exception] turns an
    overflow of the date arithmetic or a failure of the query into the
    empty list. *)
Definition get_student_attendance_trend (query_ok : bool) (today : Z) (db : Orm.Db)
    (student_id course_id days : Z) : list TrendPoint :=
  if timedelta_in_range days && date_in_range (today - days) then
    if query_ok then
      map (fun record =>
             mkTrendPoint (Attendance.date record) (Attendance.status record)
               (if Attendance.is_present record then 1 else 0))
        (trend_records today db student_id course_id days)
    else []
  else [].

(** [Course.get_total_classes(self, start_date, end_date)]: the number of
    distinct dates with a row of the course in the window. *)
Definition get_total_classes (db : Orm.Db) (self : Z) (start_date end_date : option Z)
  : Z :=
  count (nodup Z.eq_dec
           (map Attendance.date
              (filter (Orm.in_window start_date end_date)
                 (filter (fun a => Attendance.course_id a =? self)
                    (Orm.attendance db))))).

(** The notifications table with the columns the read-marking and listing
    code uses. *)
Module Inbox.

Record Note : Type := mkNote
  { id : Z;
    user_id : Z;
    is_read : bool;
    created_at : Z }.

Definition read (n : Note) : Note :=
  mkNote (id n) (user_id n) true (created_at n).

Definition owned (notification_id user : Z) (n : Note) : bool :=
  (id n =? notification_id) && (user_id n =? user).

(** [notification.is_read = True] on the row that
    [filter_by(id=..., user_id=...).first()] returns. *)
Fixpoint mark_first (notification_id user : Z) (notes : list Note) : list Note :=
  match notes with
  | [] => []
  | n :: rest =>
      if owned notification_id user n then read n :: rest
      else n :: mark_first notification_id user rest
  end.

(** [NotificationService.mark_notification_read(notification_id,
    user_id)]: the answer and the table; a store failure is rolled back and
    answered [False]. *)
Definition mark_notification_read (store_ok : bool) (notes : list Note)
    (notification_id user : Z) : bool * list Note :=
  if store_ok then
    if existsb (owned notification_id user) notes
    then (true, mark_first notification_id user notes)
    else (false, notes)
  else (false, notes).

Definition newer_first (a b : Note) : bool := created_at b <=? created_at a.

(** [NotificationService.get_user_notifications(user_id, limit)], for a
    limit that is not negative. *)
Definition get_user_notifications (store_ok : bool) (notes : list Note)
    (user : Z) (limit : nat) : list Note :=
  if store_ok then
    firstn limit (sort_by newer_first (filter (fun n => user_id n =? user) notes))
  else [].

End Inbox.

(** One line of a dashboard's list of low attendance. *)
Record LowEntry : Type := mkLowEntry
  { low_student : User.t;
    low_course : Course.t;
    low_percentage : pynum }.

Definition percentage_le (a b : LowEntry) : bool :=
  Qle_bool (num_val (low_percentage a)) (num_val (low_percentage b)).

(** routes/faculty.py, [dashboard]: the two loops that collect the students
    with [0 < percentage < 75].  [courses] is the result of the query for
    the faculty member's active courses. *)
Definition low_attendance_candidates (db : Orm.Db) (courses : list Course.t)
  : list LowEntry :=
  flat_map
    (fun course =>
       flat_map
         (fun student =>
            let percentage :=
              Orm.get_attendance_percentage db (User.id student) (Course.id course)
                None None in
            if py_lt (PyInt 0) percentage && py_lt percentage (PyInt 75)
            then [mkLowEntry student course percentage]
            else [])
         (active_students db))
    courses.

(** [sorted(low_attendance_students, key=lambda x: x['percentage'])[:10]]. *)
Definition low_attendance_students (db : Orm.Db) (courses : list Course.t)
  : list LowEntry :=
  firstn 10 (sort_by percentage_le (low_attendance_candidates db courses)).

(** One entry of the [summary] of app.py's [student_dashboard]. *)
Record DashboardRow : Type := mkDashboardRow
  { row_course_name : string;
    row_percentage : pynum;
    row_is_low : bool }.

(** The two counts the dashboard query of app.py computes for a course:
    [total_classes] counts every row of the course, [present_classes] the
    Present rows of the student. *)
Definition dashboard_total (db : Legacy.Db) (course : Z) : Z :=
  count (filter (fun a => Attendance.course_id a =? course) (Legacy.attendance db)).

Definition dashboard_present (db : Legacy.Db) (student_user_id course : Z) : Z :=
  count (filter (fun a => (Attendance.student_user_id a =? student_user_id)
                          && (Attendance.course_id a =? course)
                          && Attendance.is_present a)
           (Legacy.attendance db)).

(** app.py, [student_dashboard]. *)
Definition student_dashboard (db : Legacy.Db) (student_user_id : Z)
  : list DashboardRow :=
  flat_map
    (fun course =>
       let total_classes := dashboard_total db (Course.id course) in
       let present_classes := dashboard_present db student_user_id (Course.id course) in
       if 0 <? total_classes then
         let percentage := percent_of present_classes total_classes in
         [mkDashboardRow (Course.name course) percentage
            (py_lt percentage (PyInt 75))]
       else [])
    (Legacy.courses db).

(** [SELECT MAX(student_id) FROM users]: NULL columns are skipped, and the
    maximum of nothing is NULL. *)
Fixpoint sql_max (column : list (option Z)) : option Z :=
  match column with
  | [] => None
  | None :: rest => sql_max rest
  | Some v :: rest =>
      match sql_max rest with
      | None => Some v
      | Some m => Some (Z.max v m)
      end
  end.

(** [next_id = (result[0] or 0) + 1], in [register] and [manage_users]. *)
Definition next_id (column : list (option Z)) : Z :=
  match sql_max column with
  | None => 0
  | Some result => if result =? 0 then 0 else result
  end + 1.

(** * Properties *)

(** ** The repository's tests, run on the model *)

(** tests/test_app.py, [test_take_attendance]: one student listed and
    ticked is stored Present. *)
Example test_take_attendance :
  Orm.attendance
    (Orm.route_db
       (Orm.take_attendance Scenario.env Scenario.mail_ok Scenario.fresh_orm_db
          (mkTakeForm 10 Scenario.monday [1] [1])))
  = [Attendance.mk 1 10 Scenario.monday "Present"].
Proof. reflexivity. Qed.

(** tests/test_app.py, [test_attendance_percentage_calculation]: one class
    attended and one missed give [50.0]. *)
Example test_attendance_percentage_calculation :
  py_eq (Orm.get_attendance_percentage Scenario.orm_db 1 10 None None)
    (PyFloat 50) = true.
Proof. reflexivity. Qed.

(** The course summary of the small school: four rows, one Present. *)
Example maths_summary :
  let s := Orm.course_get_attendance_summary Scenario.orm_db 10 None None in
  Orm.total_records s = 4
  /\ Orm.present_records s = 1
  /\ Orm.absent_records s = 3
  /\ py_eq (Orm.attendance_rate s) (PyFloat 25) = true.
Proof. repeat split. Qed.

(** ** Comparisons and list filters *)

Lemma Qlt_bool_iff (x y : Q) : Qlt_bool x y = true <-> (x < y)%Q.
Proof.
  unfold Qlt_bool. rewrite negb_true_iff. split.
  - intro H. apply Qnot_le_lt. intro Hle.
    apply Qle_bool_iff in Hle. congruence.
  - intro H. destruct (Qle_bool y x) eqn:E; [ | reflexivity ].
    apply Qle_bool_iff in E. exfalso. exact (Qlt_not_le _ _ H E).
Qed.

Lemma py_in_iff (x : Z) (xs : list Z) : py_in x xs = true <-> In x xs.
Proof.
  unfold py_in. rewrite existsb_exists. split.
  - intros [y [Hy He]]. apply Z.eqb_eq in He. now subst.
  - intro H. exists x. split; [ assumption | apply Z.eqb_refl ].
Qed.

Lemma has_key_iff (s c d : Z) (a : Attendance.t) :
  Attendance.has_key s c d a = true
  <-> Attendance.student_user_id a = s
      /\ Attendance.course_id a = c /\ Attendance.date a = d.
Proof.
  unfold Attendance.has_key. rewrite !andb_true_iff, !Z.eqb_eq. tauto.
Qed.

Lemma has_key_mk (s c d s' c' d' : Z) (st : string) :
  Attendance.has_key s c d (Attendance.mk s' c' d' st)
  = (s' =? s) && (c' =? c) && (d' =? d).
Proof. reflexivity. Qed.

Section Filters.
Context {A : Type}.
Implicit Types (f g : A -> bool) (l : list A).

Lemma filter_absorb f g l :
  (forall a, f a = true -> g a = true) ->
  filter f (filter g l) = filter f l.
Proof.
  intro H. induction l as [ | a l IH ]; simpl; [ reflexivity | ].
  destruct (g a) eqn:Eg; simpl.
  - now rewrite IH.
  - destruct (f a) eqn:Ef; [ | exact IH ].
    apply H in Ef. congruence.
Qed.

Lemma filter_clash f g l :
  (forall a, f a = true -> g a = false) ->
  filter f (filter g l) = [].
Proof.
  intro H. induction l as [ | a l IH ]; simpl; [ reflexivity | ].
  destruct (g a) eqn:Eg; simpl; [ | exact IH ].
  destruct (f a) eqn:Ef; [ | exact IH ].
  apply H in Ef. congruence.
Qed.

Lemma filter_nil_iff f l :
  filter f l = [] <-> forall a, In a l -> f a = false.
Proof.
  induction l as [ | a l IH ]; simpl.
  - split; [ intros _ b [] | reflexivity ].
  - destruct (f a) eqn:Ef.
    + split; [ discriminate | ].
      intro H. specialize (H a (or_introl eq_refl)). congruence.
    + rewrite IH. split.
      * intros H b [ <- | Hb ]; auto.
      * intros H b Hb. apply H. now right.
Qed.



Lemma count_zero_nil l : count l = 0 <-> l = [].
Proof.
  unfold count. destruct l; simpl; split; intro H;
    try reflexivity; try discriminate; lia.
Qed.

End Filters.

(** ** The ledger written by app.py *)

(** After [INSERT OR REPLACE] the key of the inserted row holds that row
    and nothing else. *)
Lemma insert_or_replace_key (s c d : Z) (st : string) (rows : list Attendance.t) :
  filter (Attendance.has_key s c d)
    (Legacy.insert_or_replace (Attendance.mk s c d st) rows)
  = [Attendance.mk s c d st].
Proof.
  unfold Legacy.insert_or_replace. rewrite filter_app.
  rewrite filter_clash.
  - simpl. rewrite has_key_mk, !Z.eqb_refl. reflexivity.
  - intros a Ha. unfold Attendance.same_key. simpl. now rewrite Ha.
Qed.

(** Every other key keeps its rows. *)
Lemma insert_or_replace_other (s c d s' c' d' : Z) (st : string)
    (rows : list Attendance.t) :
  (s' =? s) && (c' =? c) && (d' =? d) = false ->
  filter (Attendance.has_key s c d)
    (Legacy.insert_or_replace (Attendance.mk s' c' d' st) rows)
  = filter (Attendance.has_key s c d) rows.
Proof.
  intro Hne. unfold Legacy.insert_or_replace. rewrite filter_app.
  simpl. rewrite has_key_mk, Hne, app_nil_r.
  apply filter_absorb. intros a Ha.
  apply negb_true_iff. unfold Attendance.same_key. simpl.
  destruct (Attendance.has_key s' c' d' a) eqn:E; [ | reflexivity ].
  apply has_key_iff in Ha. apply has_key_iff in E.
  destruct Ha as (H1 & H2 & H3), E as (E1 & E2 & E3).
  rewrite <- H1, <- H2, <- H3, E1, E2, E3, !Z.eqb_refl in Hne. discriminate.
Qed.

(** What the loop of [take_attendance] leaves under a key of the form's
    course and day. *)
Lemma legacy_loop_key (c d : Z) (present : list Z) (s : Z) :
  forall (ids : list Z) (rows : list Attendance.t),
    filter (Attendance.has_key s c d)
      (Legacy.take_attendance_loop c d ids present rows)
    = if py_in s ids
      then [Attendance.mk s c d (form_status s present)]
      else filter (Attendance.has_key s c d) rows.
Proof.
  induction ids as [ | s' ids IH ]; intro rows; simpl; [ reflexivity | ].
  rewrite IH. fold (py_in s ids).
  destruct (py_in s ids); [ now rewrite orb_true_r | ].
  rewrite orb_false_r.
  destruct (s =? s') eqn:E.
  - apply Z.eqb_eq in E. subst s'. apply insert_or_replace_key.
  - apply insert_or_replace_other.
    rewrite Z.eqb_sym, E. reflexivity.
Qed.

(** The loop leaves alone every row outside the submitted keys. *)
Lemma legacy_loop_frame (c d : Z) (present all : list Z) :
  forall (ids : list Z) (rows : list Attendance.t),
    (forall s, In s ids -> In s all) ->
    filter (fun a => negb (submitted all c d a))
      (Legacy.take_attendance_loop c d ids present rows)
    = filter (fun a => negb (submitted all c d a)) rows.
Proof.
  induction ids as [ | s ids IH ]; intros rows Hsub; simpl; [ reflexivity | ].
  rewrite IH by (intros x Hx; apply Hsub; now right).
  unfold Legacy.insert_or_replace. rewrite filter_app. simpl.
  assert (Hs : py_in s all = true) by (apply py_in_iff, Hsub; now left).
  unfold submitted at 2. simpl. rewrite Hs, !Z.eqb_refl. simpl.
  rewrite app_nil_r. apply filter_absorb.
  intros a Ha. apply negb_true_iff in Ha. apply negb_true_iff.
  unfold Attendance.same_key. simpl.
  destruct (Attendance.has_key s c d a) eqn:E; [ | reflexivity ].
  apply has_key_iff in E. destruct E as (E1 & E2 & E3).
  unfold submitted in Ha. rewrite E1, E2, E3, Hs, !Z.eqb_refl in Ha.
  discriminate.
Qed.

(** [take_attendance] of app.py reconciles the two lists: every listed
    student ends with exactly one row for the course and day, Present when
    ticked and Absent otherwise, whatever was stored before; rows outside
    the submitted keys, users and courses stay as they were. *)
Lemma legacy_take_attendance_reconciles (db : Legacy.Db) (form : TakeForm) :
  let db' := fst (Legacy.take_attendance db form) in
  (forall s, In s (all_students form) ->
     filter (Attendance.has_key s (form_course_id form) (form_date form))
       (Legacy.attendance db')
     = [Attendance.mk s (form_course_id form) (form_date form)
          (form_status s (present_students form))])
  /\ filter (fun a => negb (submitted (all_students form) (form_course_id form)
                              (form_date form) a)) (Legacy.attendance db')
     = filter (fun a => negb (submitted (all_students form) (form_course_id form)
                                (form_date form) a)) (Legacy.attendance db)
  /\ Legacy.users db' = Legacy.users db
  /\ Legacy.courses db' = Legacy.courses db.
Proof.
  simpl. repeat split.
  - intros s Hs. rewrite legacy_loop_key.
    apply py_in_iff in Hs. now rewrite Hs.
  - apply legacy_loop_frame. auto.
Qed.

(** Recording a key twice through app.py keeps one row, with the status of
    the second form. *)
Lemma legacy_second_recording_wins (db : Legacy.Db) (c d s : Z)
    (all1 present1 all2 present2 : list Z) :
  In s all2 ->
  let db1 := fst (Legacy.take_attendance db (mkTakeForm c d all1 present1)) in
  let db2 := fst (Legacy.take_attendance db1 (mkTakeForm c d all2 present2)) in
  filter (Attendance.has_key s c d) (Legacy.attendance db2)
  = [Attendance.mk s c d (form_status s present2)].
Proof.
  intros Hs db1 db2.
  exact (proj1 (legacy_take_attendance_reconciles db1 (mkTakeForm c d all2 present2))
           s Hs).
Qed.

(** ** The ledger written by routes/faculty.py *)

Lemma existsb_app_l {A : Type} (f : A -> bool) (l l' : list A) :
  existsb f l = true -> existsb f (l ++ l') = true.
Proof. intro H. rewrite existsb_app, H. reflexivity. Qed.

(** A pending row whose key is already stored makes the flush raise. *)
Lemma flush_conflict (r : Attendance.t) :
  forall (pending rows : list Attendance.t),
    In r pending ->
    existsb (Attendance.same_key r) rows = true ->
    Orm.flush pending rows = Raise IntegrityError.
Proof.
  induction pending as [ | p pending IH ]; intros rows Hin Hex; [ destruct Hin | ].
  simpl. unfold Orm.insert_row.
  destruct (existsb (Attendance.same_key p) rows) eqn:Ep; [ reflexivity | ].
  destruct Hin as [ -> | Hin ]; [ congruence | ].
  apply IH; [ assumption | now apply existsb_app_l ].
Qed.

Lemma orm_loop_pending (c d : Z) (present : list Z) (s : Z) :
  forall ids : list Z,
    In s ids ->
    In (Attendance.mk s c d (form_status s present))
       (Orm.take_attendance_loop c d ids present).
Proof.
  induction ids as [ | s' ids IH ]; [ intros [] | ].
  intros [ -> | H ]; simpl; auto.
Qed.

(** [take_attendance] of routes/faculty.py refuses the whole form as soon as
    one listed student already has a row for the course and day: the
    session is rolled back and the database is the one it started from. *)
Lemma orm_take_attendance_refuses_marked (env : Orm.Env) (mail : Orm.Notifier)
    (db : Orm.Db) (form : TakeForm) (s : Z) :
  In s (all_students form) ->
  existsb (Attendance.has_key s (form_course_id form) (form_date form))
    (Orm.attendance db) = true ->
  Orm.take_attendance env mail db form = Orm.mkRouteOutcome Orm.FlashDanger db [].
Proof.
  intros Hs Hex. unfold Orm.take_attendance.
  rewrite (flush_conflict
             (Attendance.mk s (form_course_id form) (form_date form)
                (form_status s (present_students form)))).
  - reflexivity.
  - now apply orm_loop_pending.
  - exact Hex.
Qed.

(** C2 (as the code has it).  Through routes/faculty.py the second recording
    of a key is refused: Alice is recorded Present on Monday, then the form
    is sent again with her box unticked; the second request flashes the
    error message and her row still says Present.  The same two forms
    through app.py leave her single row Absent. *)
Theorem faculty_second_recording_is_refused :
  let form1 := mkTakeForm 10 Scenario.monday [1] [1] in
  let form2 := mkTakeForm 10 Scenario.monday [1] [] in
  let first := Orm.take_attendance Scenario.env Scenario.mail_ok
                 Scenario.fresh_orm_db form1 in
  let second := Orm.take_attendance Scenario.env Scenario.mail_ok
                  (Orm.route_db first) form2 in
  let legacy1 := fst (Legacy.take_attendance Scenario.fresh_legacy_db form1) in
  let legacy2 := fst (Legacy.take_attendance legacy1 form2) in
  Orm.flashed first = Orm.FlashSuccess
  /\ Orm.flashed second = Orm.FlashDanger
  /\ Orm.attendance (Orm.route_db second)
     = [Attendance.mk 1 10 Scenario.monday "Present"]
  /\ Legacy.attendance legacy2 = [Attendance.mk 1 10 Scenario.monday "Absent"].
Proof. vm_compute. repeat split. Qed.

(** C7 (as the code has it).  Through routes/faculty.py a roster of Alice,
    Bob and Carol with Alice ticked, sent for a Monday on which Alice was
    already marked Absent, is refused as a whole: Alice stays Absent and Bob
    and Carol get no row.  app.py stores Present, Absent, Absent. *)
Theorem faculty_batch_is_refused_on_marked_day :
  let form := mkTakeForm 10 Scenario.monday [1; 2; 3] [1] in
  let out := Orm.take_attendance Scenario.env Scenario.mail_ok
               Scenario.marked_orm_db form in
  let legacy :=
    fst (Legacy.take_attendance
           (Legacy.mkDb (Orm.users Scenario.marked_orm_db)
              (Orm.courses Scenario.marked_orm_db)
              (Orm.attendance Scenario.marked_orm_db)) form) in
  Orm.flashed out = Orm.FlashDanger
  /\ Orm.attendance (Orm.route_db out)
     = [Attendance.mk 1 10 Scenario.monday "Absent"]
  /\ Legacy.attendance legacy
     = [ Attendance.mk 1 10 Scenario.monday "Present";
         Attendance.mk 2 10 Scenario.monday "Absent";
         Attendance.mk 3 10 Scenario.monday "Absent" ].
Proof. vm_compute. repeat split. Qed.

(** ** Modifying attendance *)

Lemma modified_row_refl (ids : list Z) (c d : Z) (a : Attendance.t) :
  modified_row ids c d a a.
Proof. unfold modified_row, same_columns. auto. Qed.

Lemma submitted_same_columns (ids : list Z) (c d : Z) (a b : Attendance.t) :
  same_columns a b -> submitted ids c d b = submitted ids c d a.
Proof.
  intros (H1 & H2 & H3). unfold submitted. now rewrite H1, H2, H3.
Qed.

Lemma modified_row_trans (ids : list Z) (c d : Z) (a b e : Attendance.t) :
  modified_row ids c d a b -> modified_row ids c d b e -> modified_row ids c d a e.
Proof.
  intros [Hab Fab] [Hbe Fbe]. split.
  - destruct Hab as (H1 & H2 & H3), Hbe as (G1 & G2 & G3).
    unfold same_columns. repeat split; congruence.
  - intro Hout. rewrite <- (Fab Hout). apply Fbe.
    now rewrite (submitted_same_columns ids c d a b Hab).
Qed.

Lemma modified_table_refl (ids : list Z) (c d : Z) (rows : list Attendance.t) :
  modified_table ids c d rows rows.
Proof.
  induction rows; constructor; [ apply modified_row_refl | assumption ].
Qed.

Lemma modified_table_trans (ids : list Z) (c d : Z) :
  forall rows1 rows2 rows3 : list Attendance.t,
    modified_table ids c d rows1 rows2 ->
    modified_table ids c d rows2 rows3 ->
    modified_table ids c d rows1 rows3.
Proof.
  intros rows1 rows2 rows3 H12. revert rows3.
  induction H12 as [ | a b l1 l2 Hab _ IH ]; intros rows3 H23.
  - inversion H23. constructor.
  - inversion H23 as [ | b' e l2' l3 Hbe Hrest ]; subst.
    constructor; [ eapply modified_row_trans; eassumption | now apply IH ].
Qed.

(** The keys present in a table survive a modification, and no key appears. *)
Lemma modified_table_keys (ids : list Z) (c d : Z) (rows rows' : list Attendance.t) :
  modified_table ids c d rows rows' ->
  forall s c0 d0,
    existsb (Attendance.has_key s c0 d0) rows'
    = existsb (Attendance.has_key s c0 d0) rows.
Proof.
  intros H s c0 d0. induction H as [ | a b l l' [(H1 & H2 & H3) _] _ IH ];
    [ reflexivity | ].
  simpl. rewrite IH. unfold Attendance.has_key. now rewrite H1, H2, H3.
Qed.

Lemma submitted_of_key (ids : list Z) (s c d : Z) (a : Attendance.t) :
  In s ids -> Attendance.has_key s c d a = true -> submitted ids c d a = true.
Proof.
  intros Hs Hk. apply has_key_iff in Hk. destruct Hk as (H1 & H2 & H3).
  unfold submitted. rewrite H1, H2, H3, !Z.eqb_refl.
  apply py_in_iff in Hs. now rewrite Hs.
Qed.

(** One [UPDATE ... WHERE] of app.py. *)
Lemma update_status_modifies (ids : list Z) (s c d : Z) (st : string)
    (rows rows' : list Attendance.t) :
  In s ids ->
  Legacy.update_status st s c d rows = Ok rows' ->
  modified_table ids c d rows rows'.
Proof.
  intros Hs. unfold Legacy.update_status.
  destruct (_ && _); [ discriminate | ].
  intro H. injection H as <-.
  induction rows as [ | a rows IH ]; simpl; constructor; [ | exact IH ].
  destruct (Attendance.has_key s c d a) eqn:E.
  - split; [ unfold same_columns; simpl; auto | ].
    rewrite (submitted_of_key ids s c d a Hs E). discriminate.
  - apply modified_row_refl.
Qed.

(** One [attendance.status = ...] of routes/faculty.py. *)
Lemma set_first_status_modifies (ids : list Z) (s c d : Z) (st : string)
    (rows : list Attendance.t) :
  In s ids ->
  modified_table ids c d rows (Orm.set_first_status s c d st rows).
Proof.
  intros Hs. induction rows as [ | a rows IH ]; simpl; [ constructor | ].
  destruct (Attendance.has_key s c d a) eqn:E.
  - constructor; [ | apply modified_table_refl ].
    split; [ unfold same_columns; simpl; auto | ].
    rewrite (submitted_of_key ids s c d a Hs E). discriminate.
  - constructor; [ apply modified_row_refl | exact IH ].
Qed.

Lemma legacy_modify_loop_modifies (all : list Z) (c d : Z) (statuses : list string) :
  forall (ids : list Z) (i : nat) (rows rows' : list Attendance.t),
    (forall s, In s ids -> In s all) ->
    Legacy.modify_attendance_loop c d statuses i ids rows = Ok rows' ->
    modified_table all c d rows rows'.
Proof.
  induction ids as [ | s ids IH ]; intros i rows rows' Hsub; simpl.
  - intro H. injection H as <-. apply modified_table_refl.
  - destruct (nth_error statuses i) as [ st | ]; [ | discriminate ].
    destruct (Legacy.update_status st s c d rows) as [ rows1 | e ] eqn:E;
      [ | discriminate ].
    intro H. apply modified_table_trans with rows1.
    + apply update_status_modifies with s st; [ apply Hsub; now left | exact E ].
    + apply IH with (S i); [ intros x Hx; apply Hsub; now right | exact H ].
Qed.

Lemma orm_modify_loop_modifies (all : list Z) (c d : Z) (statuses : list string) :
  forall (ids : list Z) (i : nat) (rows rows' : list Attendance.t),
    (forall s, In s ids -> In s all) ->
    Orm.modify_attendance_loop c d statuses i ids rows = Ok rows' ->
    modified_table all c d rows rows'.
Proof.
  induction ids as [ | s ids IH ]; intros i rows rows' Hsub; simpl.
  - intro H. injection H as <-. apply modified_table_refl.
  - destruct (existsb (Attendance.has_key s c d) rows).
    + destruct (nth_error statuses i) as [ st | ]; [ | discriminate ].
      intro H.
      apply modified_table_trans with (Orm.set_first_status s c d st rows).
      * apply set_first_status_modifies. apply Hsub. now left.
      * apply IH with (S i); [ intros x Hx; apply Hsub; now right | exact H ].
    + intro H.
      apply IH with (S i); [ intros x Hx; apply Hsub; now right | exact H ].
Qed.

(** The alerting pass of services.py reads the ledger and never writes it. *)
Lemma pass_keeps_ledger (env : Orm.Env) (mail : Orm.Notifier) (db : Orm.Db)
    (c : Z) (sd ed : option Z) :
  let pass := Orm.check_and_send_alerts env mail db c sd ed in
  Orm.attendance (Orm.db_after pass) = Orm.attendance db
  /\ Orm.users (Orm.db_after pass) = Orm.users db
  /\ Orm.courses (Orm.db_after pass) = Orm.courses db.
Proof.
  unfold Orm.check_and_send_alerts.
  destruct (Orm.alerts_body env mail db c sd ed) as [[added | e] sent];
    simpl; auto.
Qed.

(** C10.  [modify_attendance], in app.py and in routes/faculty.py alike,
    takes the attendance table to one with the same rows in the same order
    up to the status of the rows under a submitted (student, course, date):
    a row outside the submitted keys is unchanged, and a key has a row
    afterwards exactly when it had one before, so a submitted key without a
    record gets none.  This covers the requests that end in an exception,
    which leave the table as it was. *)
Theorem modify_attendance_only_restates_existing_rows
    (ldb : Legacy.Db) (env : Orm.Env) (mail : Orm.Notifier) (db : Orm.Db)
    (form : ModifyForm) :
  let ids := student_ids form in
  let c := modify_course_id form in
  let d := modify_date form in
  let legacy_rows := Legacy.attendance (snd (fst (Legacy.modify_attendance ldb form))) in
  let orm_rows := Orm.attendance (Orm.route_db (Orm.modify_attendance env mail db form)) in
  modified_table ids c d (Legacy.attendance ldb) legacy_rows
  /\ modified_table ids c d (Orm.attendance db) orm_rows
  /\ (forall s c0 d0,
        existsb (Attendance.has_key s c0 d0) legacy_rows
        = existsb (Attendance.has_key s c0 d0) (Legacy.attendance ldb))
  /\ (forall s c0 d0,
        existsb (Attendance.has_key s c0 d0) orm_rows
        = existsb (Attendance.has_key s c0 d0) (Orm.attendance db)).
Proof.
  intros ids c d legacy_rows orm_rows.
  assert (HL : modified_table ids c d (Legacy.attendance ldb) legacy_rows).
  { subst legacy_rows. unfold Legacy.modify_attendance. fold ids c d.
    destruct (Legacy.modify_attendance_loop c d (statuses form) 0 ids
                (Legacy.attendance ldb)) as [ rows' | e ] eqn:E; simpl.
    - eapply legacy_modify_loop_modifies; [ | exact E ]. auto.
    - apply modified_table_refl. }
  assert (HO : modified_table ids c d (Orm.attendance db) orm_rows).
  { subst orm_rows. unfold Orm.modify_attendance. fold ids c d.
    destruct (Orm.modify_attendance_loop c d (statuses form) 0 ids
                (Orm.attendance db)) as [ rows' | e ] eqn:E; simpl;
      [ | apply modified_table_refl ].
    destruct (Orm.run env Orm.Commit tt); simpl; [ | apply modified_table_refl ].
    rewrite (proj1 (pass_keeps_ledger env mail (Orm.set_attendance db rows') c None None)).
    simpl. eapply orm_modify_loop_modifies; [ | exact E ]. auto. }
  repeat split; try assumption.
  - now apply modified_table_keys with ids c d.
  - now apply modified_table_keys with ids c d.
Qed.

(** ** The alerting pass of services.py *)

Lemma run_ok {A : Type} (env : Orm.Env) (op : Orm.StoreOp) (v w : A) :
  Orm.run env op v = Ok w -> w = v.
Proof. unfold Orm.run. destruct (Orm.store_up env op); congruence. Qed.

Lemma run_raise {A : Type} (env : Orm.Env) (op : Orm.StoreOp) (v : A) (e : exn) :
  Orm.run env op v = Raise e -> e = OperationalError /\ Orm.store_up env op = false.
Proof.
  unfold Orm.run. destruct (Orm.store_up env op); [ discriminate | ].
  intro H. injection H as <-. auto.
Qed.

(** The percentage is a function of the attendance table alone. *)
Lemma percentage_reads_ledger (db db' : Orm.Db) (s c : Z) (sd ed : option Z) :
  Orm.attendance db' = Orm.attendance db ->
  Orm.get_attendance_percentage db' s c sd ed
  = Orm.get_attendance_percentage db s c sd ed.
Proof.
  intro H. unfold Orm.get_attendance_percentage, Orm.percentage_query.
  now rewrite H.
Qed.

(** A positive percentage needs a row in the window. *)
Lemma positive_percentage_has_rows (db : Orm.Db) (s c : Z) (sd ed : option Z) :
  py_gt (Orm.get_attendance_percentage db s c sd ed) (PyInt 0) = true ->
  Orm.percentage_query db s c sd ed <> [].
Proof.
  unfold Orm.get_attendance_percentage. intros H Hnil.
  rewrite Hnil in H. discriminate H.
Qed.

(** The loop neither looks at the notifier's answer nor at anything in the
    database but the attendance table. *)
Lemma alert_loop_reads_ledger (env : Orm.Env) (mail mail' : Orm.Notifier)
    (db db' : Orm.Db) (c : Z) (course : Course.t) (sd ed : option Z) :
  Orm.attendance db' = Orm.attendance db ->
  forall students,
    Orm.alert_loop env mail' db' c course sd ed students
    = Orm.alert_loop env mail db c course sd ed students.
Proof.
  intros H students. induction students as [ | u students IH ]; simpl;
    [ reflexivity | ].
  rewrite (percentage_reads_ledger db db' _ _ _ _ H), IH. reflexivity.
Qed.

Lemma alerts_body_reads_ledger (env : Orm.Env) (mail mail' : Orm.Notifier)
    (db db' : Orm.Db) (c : Z) (sd ed : option Z) :
  Orm.attendance db' = Orm.attendance db ->
  Orm.users db' = Orm.users db ->
  Orm.courses db' = Orm.courses db ->
  Orm.alerts_body env mail' db' c sd ed = Orm.alerts_body env mail db c sd ed.
Proof.
  intros Ha Hu Hc. unfold Orm.alerts_body. rewrite Hu, Hc.
  destruct (Orm.run env Orm.GetCourse _) as [ [ course | ] | e ]; try reflexivity.
  destruct (Orm.alert_window env sd ed) as [ws we].
  destruct (Orm.run env Orm.ListStudents _) as [ students | e ]; try reflexivity.
  now rewrite (alert_loop_reads_ledger env mail mail' db db' c course ws we Ha).
Qed.

(** What the loop sends and what it adds to the session go together: one
    notification per call, for the same student and percentage, and every
    call is for a student whose percentage is positive and below the
    threshold. *)
Lemma alert_loop_calls (env : Orm.Env) (mail : Orm.Notifier) (db : Orm.Db)
    (c : Z) (course : Course.t) (sd ed : option Z) :
  forall students call,
    In call (snd (Orm.alert_loop env mail db c course sd ed students)) ->
    alert_percentage call
    = Orm.get_attendance_percentage db (alert_user call) c sd ed
    /\ py_lt (alert_percentage call) (ATTENDANCE_THRESHOLD (Orm.cfg env)) = true
    /\ py_gt (alert_percentage call) (PyInt 0) = true.
Proof.
  induction students as [ | u students IH ]; intros call; simpl; [ intros [] | ].
  destruct (Orm.run env _ _) as [ pct | e ] eqn:Erun; [ | intros [] ].
  apply run_ok in Erun. subst pct.
  destruct (py_lt _ _ && py_gt _ _) eqn:Econd; [ | apply IH ].
  destruct (Orm.alert_loop env mail db c course sd ed students) as [r sent].
  simpl in *. intros [ <- | Hin ]; [ | now apply IH ].
  apply andb_true_iff in Econd. simpl. tauto.
Qed.

Lemma alert_loop_added (env : Orm.Env) (mail : Orm.Notifier) (db : Orm.Db)
    (c : Z) (course : Course.t) (sd ed : option Z) :
  forall students added,
    fst (Orm.alert_loop env mail db c course sd ed students) = Ok added ->
    map (fun n => (Notification.user_id n, Notification.message_percentage n)) added
    = map (fun call => (alert_user call, alert_percentage call))
        (snd (Orm.alert_loop env mail db c course sd ed students)).
Proof.
  induction students as [ | u students IH ]; intros added; simpl.
  - intro H. injection H as <-. reflexivity.
  - destruct (Orm.run env _ _) as [ pct | e ]; [ | discriminate ].
    destruct (py_lt _ _ && py_gt _ _); [ | apply IH ].
    destruct (Orm.alert_loop env mail db c course sd ed students) as [[added' | e] sent];
      simpl in *; [ | discriminate ].
    intro H. injection H as <-. simpl. now rewrite (IH added' eq_refl).
Qed.

Lemma alert_loop_raises (env : Orm.Env) (mail : Orm.Notifier) (db : Orm.Db)
    (c : Z) (course : Course.t) (sd ed : option Z) :
  forall students e,
    fst (Orm.alert_loop env mail db c course sd ed students) = Raise e ->
    e = OperationalError.
Proof.
  induction students as [ | u students IH ]; intros e; simpl; [ discriminate | ].
  destruct (Orm.run env _ _) as [ pct | e' ] eqn:Erun.
  - destruct (py_lt _ _ && py_gt _ _); [ | apply IH ].
    destruct (Orm.alert_loop env mail db c course sd ed students) as [[added' | e''] sent];
      simpl in *; [ discriminate | ].
    intro H. injection H as <-. now apply IH.
  - simpl. intro H. injection H as <-. now apply run_raise in Erun.
Qed.

Lemma alerts_body_end (env : Orm.Env) (mail : Orm.Notifier) (db : Orm.Db)
    (c : Z) (sd ed : option Z) :
  body_end env mail db c sd ed (Orm.alerts_body env mail db c sd ed).
Proof.
  unfold Orm.alerts_body.
  destruct (Orm.run env Orm.GetCourse _) as [ [ course | ] | e ] eqn:E1.
  - destruct (Orm.alert_window env sd ed) as [ws we] eqn:Ew.
    destruct (Orm.run env Orm.ListStudents _) as [ students | e ] eqn:E2.
    + destruct (Orm.alert_loop env mail db c course ws we students)
        as [[added | e] sent] eqn:E3.
      * destruct (Orm.run env Orm.Commit tt) as [ [] | e ] eqn:E4.
        -- apply end_loop with course students. now rewrite Ew.
        -- apply run_raise in E4. destruct E4 as [-> E4].
           apply end_commit with course students added; [ now rewrite Ew | exact E4 ].
      * apply end_loop with course students. now rewrite Ew.
    + apply run_raise in E2. destruct E2 as [-> _]. constructor.
  - constructor.
  - apply run_raise in E1. destruct E1 as [-> _]. constructor.
Qed.

(** The notifications a pass leaves in the database: those that were there,
    followed by one per notifier call when the pass committed, and by none
    when it logged an error. *)
Lemma pass_notifications (env : Orm.Env) (mail : Orm.Notifier) (db : Orm.Db)
    (c : Z) (sd ed : option Z) :
  let pass := Orm.check_and_send_alerts env mail db c sd ed in
  exists added,
    Orm.notifications (Orm.db_after pass) = Orm.notifications db ++ added
    /\ (Orm.errors_logged pass = [] ->
        map (fun n => (Notification.user_id n, Notification.message_percentage n))
          added
        = map (fun call => (alert_user call, alert_percentage call))
            (Orm.emails pass))
    /\ (Orm.errors_logged pass <> [] -> added = []).
Proof.
  unfold Orm.check_and_send_alerts.
  destruct (alerts_body_end env mail db c sd ed) as [ | | course students r sent E
                                                     | course students added sent E Hc ];
    simpl.
  - exists []. simpl. repeat split; congruence.
  - exists []. rewrite app_nil_r. repeat split; congruence.
  - destruct r as [ added | e ]; simpl.
    + exists added. repeat split; [ | congruence ].
      intros _.
      pose proof (alert_loop_added env mail db c course
                    (fst (Orm.alert_window env sd ed))
                    (snd (Orm.alert_window env sd ed)) students added) as H.
      rewrite E in H. now apply H.
    + exists []. rewrite app_nil_r. repeat split; congruence.
  - exists []. rewrite app_nil_r. repeat split; congruence.
Qed.

(** Every notifier call of a pass is for a student whose percentage over
    the pass's window is positive and below the threshold. *)
Lemma pass_calls (env : Orm.Env) (mail : Orm.Notifier) (db : Orm.Db)
    (c : Z) (sd ed : option Z) (call : AlertCall) :
  In call (Orm.emails (Orm.check_and_send_alerts env mail db c sd ed)) ->
  let w := Orm.alert_window env sd ed in
  alert_percentage call
  = Orm.get_attendance_percentage db (alert_user call) c (fst w) (snd w)
  /\ py_lt (alert_percentage call) (ATTENDANCE_THRESHOLD (Orm.cfg env)) = true
  /\ py_gt (alert_percentage call) (PyInt 0) = true.
Proof.
  unfold Orm.check_and_send_alerts.
  destruct (alerts_body_end env mail db c sd ed) as [ | | course students r sent E
                                                     | course students added sent E Hc ];
    simpl; try (intros []).
  - assert (Hsent : In call sent -> In call (snd (Orm.alert_loop env mail db c course
                      (fst (Orm.alert_window env sd ed))
                      (snd (Orm.alert_window env sd ed)) students)))
      by now rewrite E.
    destruct r; simpl; intro Hin; apply Hsent in Hin;
      now apply alert_loop_calls in Hin.
  - intro Hin.
    assert (Hsent : In call (snd (Orm.alert_loop env mail db c course
                      (fst (Orm.alert_window env sd ed))
                      (snd (Orm.alert_window env sd ed)) students)))
      by now rewrite E.
    now apply alert_loop_calls in Hsent.
Qed.

(** A run of the pass over the database an earlier run left behind makes
    the very same notifier calls. *)
Lemma pass_again_same_calls (env : Orm.Env) (mail mail' : Orm.Notifier)
    (db : Orm.Db) (c : Z) (sd ed : option Z) :
  let first := Orm.check_and_send_alerts env mail db c sd ed in
  Orm.alerts_body env mail' (Orm.db_after first) c sd ed
  = Orm.alerts_body env mail db c sd ed.
Proof.
  intro first.
  destruct (pass_keeps_ledger env mail db c sd ed) as (Ha & Hu & Hc).
  now apply alerts_body_reads_ledger.
Qed.

(** C1 (as the code has it).  The pass keeps no record of whom it alerted
    for a window and checks none: a second run over the same window, with
    the attendance rows unchanged, makes exactly the notifier calls of the
    first, and when the runs commit each appends its own notification per
    call, so the table then holds two per alerted student. *)
Theorem second_run_repeats_every_alert (env : Orm.Env) (mail mail' : Orm.Notifier)
    (db : Orm.Db) (c : Z) (sd ed : option Z) :
  let first := Orm.check_and_send_alerts env mail db c sd ed in
  let second := Orm.check_and_send_alerts env mail' (Orm.db_after first) c sd ed in
  Orm.emails second = Orm.emails first
  /\ exists added,
       Orm.notifications (Orm.db_after first) = Orm.notifications db ++ added
       /\ Orm.notifications (Orm.db_after second)
          = Orm.notifications db ++ added ++ added
       /\ (Orm.errors_logged first = [] ->
           map Notification.user_id added = map alert_user (Orm.emails first)).
Proof.
  intros first second.
  pose proof (pass_again_same_calls env mail mail' db c sd ed) as Hbody.
  fold first in Hbody.
  destruct (pass_notifications env mail db c sd ed) as (added & Hn & Hok & Hko).
  fold first in Hn, Hok, Hko.
  assert (Hsecond :
            Orm.emails second = Orm.emails first
            /\ Orm.notifications (Orm.db_after second)
               = Orm.notifications (Orm.db_after first) ++ added).
  { subst second. unfold Orm.check_and_send_alerts. rewrite Hbody. clear Hbody.
    revert Hn Hok Hko. subst first. unfold Orm.check_and_send_alerts.
    destruct (Orm.alerts_body env mail db c sd ed) as [[added0 | e] sent]; simpl.
    - intros Hn _ _. apply app_inv_head in Hn. subst added0. auto.
    - intros _ _ Hko. rewrite (Hko ltac:(discriminate)), app_nil_r. auto. }
  destruct Hsecond as [He Hn2]. split; [ exact He | ].
  exists added. repeat split.
  - exact Hn.
  - rewrite Hn2, Hn, app_assoc. reflexivity.
  - intro H. specialize (Hok H).
    apply (f_equal (map fst)) in Hok. now rewrite !map_map in Hok.
Qed.

(** C1 (counterexample).  Alice attended one class of two.  The first pass
    over the fixed window alerts her, and so does the second; afterwards the
    notification table holds two alerts for her.  app.py, which keeps no
    record at all, alerts her (and Bob) at every run. *)
Lemma alice_is_alerted_twice :
  let first := Orm.check_and_send_alerts Scenario.env Scenario.mail_ok
                 Scenario.orm_db 10 Scenario.window_start Scenario.window_end in
  let second := Orm.check_and_send_alerts Scenario.env Scenario.mail_ok
                  (Orm.db_after first) 10 Scenario.window_start Scenario.window_end in
  map alert_user (Orm.emails first) = [1]
  /\ map alert_user (Orm.emails second) = [1]
  /\ map Notification.user_id (Orm.notifications (Orm.db_after second)) = [1; 1]
  /\ map alert_user (Legacy.check_and_send_alerts Scenario.legacy_db 10) = [1; 2].
Proof. vm_compute. repeat split. Qed.

Lemma pass_again_same_emails (env : Orm.Env) (mail mail' : Orm.Notifier)
    (db : Orm.Db) (c : Z) (sd ed : option Z) :
  let first := Orm.check_and_send_alerts env mail db c sd ed in
  Orm.emails (Orm.check_and_send_alerts env mail' (Orm.db_after first) c sd ed)
  = Orm.emails first.
Proof.
  intro first.
  pose proof (pass_again_same_calls env mail mail' db c sd ed) as Hbody.
  fold first in Hbody.
  unfold Orm.check_and_send_alerts at 1. rewrite Hbody. clear Hbody.
  subst first. unfold Orm.check_and_send_alerts.
  destruct (Orm.alerts_body env mail db c sd ed) as [[added | e] sent]; reflexivity.
Qed.

Lemma pass_returns (env : Orm.Env) (mail : Orm.Notifier) (db : Orm.Db)
    (c : Z) (sd ed : option Z) :
  Orm.returned (Orm.check_and_send_alerts env mail db c sd ed) = Ok tt.
Proof.
  unfold Orm.check_and_send_alerts.
  destruct (Orm.alerts_body env mail db c sd ed) as [[added | e] sent]; reflexivity.
Qed.

(** C3 (as the code has it).  When [send_attendance_alert] answers [False]
    for a student, the pass goes on as if it had answered [True]: the call
    of the pass returns normally, with no outcome for the failed send, the
    notification for that student is among those the pass commits, and a
    later run over the same window calls the notifier for the student
    again. *)
Theorem failed_send_is_notified_and_sent_again (env : Orm.Env)
    (mail mail' : Orm.Notifier) (db : Orm.Db) (c : Z) (sd ed : option Z)
    (call : AlertCall) :
  let first := Orm.check_and_send_alerts env mail db c sd ed in
  let second := Orm.check_and_send_alerts env mail' (Orm.db_after first) c sd ed in
  In call (Orm.emails first) ->
  mail call = false ->
  Orm.returned first = Ok tt
  /\ In call (Orm.emails second)
  /\ (Orm.errors_logged first = [] ->
      exists added n,
        Orm.notifications (Orm.db_after first) = Orm.notifications db ++ added
        /\ In n added
        /\ Notification.user_id n = alert_user call
        /\ Notification.message_percentage n = alert_percentage call).
Proof.
  intros first second Hin _. split; [ apply pass_returns | ]. split.
  - subst second first. now rewrite pass_again_same_emails.
  - intro Hok.
    destruct (pass_notifications env mail db c sd ed) as (added & Hn & Hmap & _).
    fold first in Hn, Hmap. specialize (Hmap Hok).
    assert (Hpair : In (alert_user call, alert_percentage call)
                      (map (fun n => (Notification.user_id n,
                                      Notification.message_percentage n)) added)).
    { rewrite Hmap. apply in_map_iff. now exists call. }
    apply in_map_iff in Hpair. destruct Hpair as (n & Hn1 & Hn2).
    exists added, n. injection Hn1 as H1 H2. auto.
Qed.

(** C3 (counterexample).  With the mail transport down, the pass over
    Alice's one class out of two calls the notifier for her, is told
    [False], and commits her notification all the same. *)
Lemma failed_send_leaves_a_notification :
  let first := Orm.check_and_send_alerts Scenario.env Scenario.mail_down
                 Scenario.orm_db 10 Scenario.window_start Scenario.window_end in
  map alert_user (Orm.emails first) = [1]
  /\ map Scenario.mail_down (Orm.emails first) = [false]
  /\ Orm.errors_logged first = []
  /\ map Notification.user_id (Orm.notifications (Orm.db_after first)) = [1].
Proof. vm_compute. repeat split. Qed.

(** The statement above at Alice, with the transport down at the first run
    and up at the second. *)
Lemma failed_send_is_notified_and_sent_again_at_alice :
  let call := mkAlertCall 1 "alice@bit.edu" "Alice" "Maths" (PyFloat (100 # 2)) in
  let first := Orm.check_and_send_alerts Scenario.env Scenario.mail_down
                 Scenario.orm_db 10 Scenario.window_start Scenario.window_end in
  In call
    (Orm.emails
       (Orm.check_and_send_alerts Scenario.env Scenario.mail_ok
          (Orm.db_after first) 10 Scenario.window_start Scenario.window_end)).
Proof.
  refine (proj1 (proj2
            (failed_send_is_notified_and_sent_again Scenario.env Scenario.mail_down
               Scenario.mail_ok Scenario.orm_db 10 Scenario.window_start
               Scenario.window_end
               (mkAlertCall 1 "alice@bit.edu" "Alice" "Maths" (PyFloat (100 # 2)))
               _ _))).
  - vm_compute. left. reflexivity.
  - reflexivity.
Defined.

(** The loop ends in an exception exactly when the store cannot count the
    rows of one of the students it is given. *)
Lemma alert_loop_outcome (env : Orm.Env) (mail : Orm.Notifier) (db : Orm.Db)
    (c : Z) (course : Course.t) (sd ed : option Z) :
  forall students,
    match fst (Orm.alert_loop env mail db c course sd ed students) with
    | Ok _ =>
        existsb (fun u => negb (Orm.store_up env (Orm.CountAttendance (User.id u))))
          students = false
    | Raise e =>
        e = OperationalError
        /\ existsb (fun u => negb (Orm.store_up env
                                     (Orm.CountAttendance (User.id u))))
             students = true
    end.
Proof.
  induction students as [ | u students IH ]; cbn [Orm.alert_loop existsb];
    [ reflexivity | ].
  unfold Orm.run.
  destruct (Orm.store_up env (Orm.CountAttendance (User.id u)));
    cbn [negb orb fst]; [ | split; reflexivity ].
  destruct (py_lt _ _ && py_gt _ _); [ | exact IH ].
  destruct (Orm.alert_loop env mail db c course sd ed students) as [[added | e] sent];
    cbn [fst] in *; exact IH.
Qed.

(** C9 (as the code has it).  A failure of the store during the pass never
    reaches the caller.  Whatever happens, the call returns normally.  When
    a store operation the pass comes to fails (the course query, the roster
    query, the count of a student's rows, or the commit) the pass logs the
    driver's error, once, and the session is rolled back, so the database
    is the one the pass started from; when none fails nothing is logged.
    Nothing else is ever logged, and a store that cannot answer the course
    query makes the pass send nothing. *)
Theorem store_failure_is_logged_and_swallowed (env : Orm.Env) (mail : Orm.Notifier)
    (db : Orm.Db) (c : Z) (sd ed : option Z) :
  let pass := Orm.check_and_send_alerts env mail db c sd ed in
  Orm.returned pass = Ok tt
  /\ (store_fails env db c = true ->
      Orm.errors_logged pass = [OperationalError] /\ Orm.db_after pass = db)
  /\ (store_fails env db c = false -> Orm.errors_logged pass = [])
  /\ (forall e, In e (Orm.errors_logged pass) ->
        e = OperationalError /\ Orm.db_after pass = db)
  /\ (Orm.store_up env Orm.GetCourse = false ->
      Orm.errors_logged pass = [OperationalError] /\ Orm.emails pass = []).
Proof.
  intro pass. split; [ apply pass_returns | ].
  assert (Hcases :
            (store_fails env db c = true ->
             Orm.errors_logged pass = [OperationalError] /\ Orm.db_after pass = db)
            /\ (store_fails env db c = false -> Orm.errors_logged pass = [])).
  { subst pass.
    unfold Orm.check_and_send_alerts, Orm.alerts_body, Orm.run, store_fails.
    destruct (Orm.store_up env Orm.GetCourse); cbn [negb orb];
      [ | split; [ auto | discriminate ] ].
    destruct (find _ (Orm.courses db)) as [ course | ];
      [ | split; [ discriminate | reflexivity ] ].
    destruct (Orm.alert_window env sd ed) as [ws we].
    destruct (Orm.store_up env Orm.ListStudents); cbn [negb orb];
      [ | split; [ auto | discriminate ] ].
    fold (active_students db).
    pose proof (alert_loop_outcome env mail db c course ws we (active_students db))
      as Hloop.
    destruct (Orm.alert_loop env mail db c course ws we (active_students db))
      as [[added | e] sent]; cbn [fst] in Hloop.
    - rewrite Hloop. cbn [orb].
      destruct (Orm.store_up env Orm.Commit); cbn [negb];
        split; auto; discriminate.
    - destruct Hloop as [-> Hloop]. rewrite Hloop. cbn [orb].
      split; [ auto | discriminate ]. }
  destruct Hcases as [Hfail Hfine].
  split; [ exact Hfail | ]. split; [ exact Hfine | ]. split.
  - intros e He. destruct (store_fails env db c) eqn:Ef.
    + destruct (Hfail eq_refl) as [Hlog Hdb]. rewrite Hlog in He.
      destruct He as [ <- | [] ]. auto.
    + rewrite (Hfine eq_refl) in He. destruct He.
  - intro Hdown. subst pass.
    unfold Orm.check_and_send_alerts, Orm.alerts_body, Orm.run.
    rewrite Hdown. auto.
Qed.

(** C9 (counterexample).  The store refuses the commit.  The pass has by
    then sent Alice's alert; it logs the error, rolls her notification
    back, and returns as a pass without any failure does. *)
Lemma refused_commit_is_not_raised :
  let pass := Orm.check_and_send_alerts Scenario.env_commit_down Scenario.mail_ok
                Scenario.orm_db 10 Scenario.window_start Scenario.window_end in
  let healthy := Orm.check_and_send_alerts Scenario.env Scenario.mail_ok
                   Scenario.orm_db 10 Scenario.window_start Scenario.window_end in
  Orm.store_up Scenario.env_commit_down Orm.Commit = false
  /\ Orm.errors_logged pass = [OperationalError]
  /\ Orm.returned pass = Ok tt
  /\ Orm.returned healthy = Orm.returned pass
  /\ map alert_user (Orm.emails pass) = [1]
  /\ Orm.notifications (Orm.db_after pass) = [].
Proof. vm_compute. repeat split. Qed.

(** ** Who is alerted *)

(** app.py: the loop calls the notifier only for students with a row in
    the period. *)
Lemma legacy_alert_loop_calls (db : Legacy.Db) (c : Z) (course : Course.t) :
  forall students call,
    In call (Legacy.alert_loop db c course students) ->
    0 < Legacy.stats_total db (alert_user call) c.
Proof.
  induction students as [ | u students IH ]; intros call; simpl; [ intros [] | ].
  rewrite in_app_iff. intros [ Hin | Hin ]; [ | now apply IH ].
  unfold Legacy.alert_student in Hin.
  destruct (0 <? Legacy.stats_total db (User.id u) c) eqn:Et; [ | destruct Hin ].
  destruct (py_lt _ _); [ | destruct Hin ].
  destruct Hin as [ <- | [] ]. simpl. now apply Z.ltb_lt.
Qed.

Lemma legacy_pass_calls (db : Legacy.Db) (c : Z) (call : AlertCall) :
  In call (Legacy.check_and_send_alerts db c) ->
  0 < Legacy.stats_total db (alert_user call) c.
Proof.
  unfold Legacy.check_and_send_alerts.
  destruct (find _ (Legacy.courses db)) as [ course | ]; [ | intros [] ].
  apply legacy_alert_loop_calls.
Qed.

(** C6.  A student with no attendance row in the window the pass evaluates
    is never alerted.  In services.py the percentage computed for the
    student is the no-data value, no notifier call of the pass is for the
    student, and no notification is added for the student; in app.py the
    loop body makes no call for such a student, and no call of the pass is
    for the student. *)
Theorem student_without_rows_is_never_alerted (env : Orm.Env) (mail : Orm.Notifier)
    (db : Orm.Db) (ldb : Legacy.Db) (c : Z) (sd ed : option Z) (s : Z) :
  let w := Orm.alert_window env sd ed in
  let pass := Orm.check_and_send_alerts env mail db c sd ed in
  Orm.percentage_query db s c (fst w) (snd w) = [] ->
  Legacy.stats_rows ldb s c = [] ->
  Orm.get_attendance_percentage db s c (fst w) (snd w) = PyInt 0
  /\ (forall call, In call (Orm.emails pass) -> alert_user call <> s)
  /\ (forall n, In n (Orm.notifications (Orm.db_after pass)) ->
        In n (Orm.notifications db) \/ Notification.user_id n <> s)
  /\ (forall course u, User.id u = s -> Legacy.alert_student ldb c course u = [])
  /\ (forall call, In call (Legacy.check_and_send_alerts ldb c) ->
        alert_user call <> s).
Proof.
  intros w pass Horm Hlegacy.
  assert (Hcalls : forall call, In call (Orm.emails pass) -> alert_user call <> s).
  { intros call Hin Heq. apply pass_calls in Hin.
    destruct Hin as (Hpct & _ & Hpos). fold w in Hpct.
    rewrite Hpct, Heq in Hpos.
    now apply positive_percentage_has_rows in Hpos. }
  repeat split.
  - unfold Orm.get_attendance_percentage. now rewrite Horm.
  - exact Hcalls.
  - intros n Hin.
    destruct (pass_notifications env mail db c sd ed) as (added & Hn & Hok & Hko).
    fold pass in Hn, Hok, Hko. rewrite Hn in Hin.
    apply in_app_iff in Hin. destruct Hin as [ Hold | Hnew ]; [ now left | right ].
    destruct (Orm.errors_logged pass) as [ | e l ] eqn:Elog.
    + specialize (Hok eq_refl).
      assert (Hpair : In (Notification.user_id n, Notification.message_percentage n)
                        (map (fun call => (alert_user call, alert_percentage call))
                           (Orm.emails pass))).
      { rewrite <- Hok. apply in_map_iff. now exists n. }
      apply in_map_iff in Hpair. destruct Hpair as (call & Hc1 & Hc2).
      injection Hc1 as H1 _. rewrite <- H1. now apply Hcalls.
    + rewrite (Hko ltac:(discriminate)) in Hnew. destruct Hnew.
  - intros course u Hu. unfold Legacy.alert_student, Legacy.stats_total.
    now rewrite Hu, Hlegacy.
  - intros call Hin Heq. apply legacy_pass_calls in Hin.
    unfold Legacy.stats_total in Hin. rewrite Heq, Hlegacy in Hin.
    discriminate Hin.
Qed.

(** The statement above at Carol, who has no row. *)
Lemma student_without_rows_is_never_alerted_at_carol :
  let pass := Orm.check_and_send_alerts Scenario.env Scenario.mail_ok
                Scenario.orm_db 10 Scenario.window_start Scenario.window_end in
  (forall call, In call (Orm.emails pass) -> alert_user call <> 3)
  /\ (forall call, In call (Legacy.check_and_send_alerts Scenario.legacy_db 10) ->
        alert_user call <> 3).
Proof.
  pose proof (student_without_rows_is_never_alerted Scenario.env Scenario.mail_ok
                Scenario.orm_db Scenario.legacy_db 10 Scenario.window_start
                Scenario.window_end 3 eq_refl eq_refl) as H.
  split; [ exact (proj1 (proj2 H)) | exact (proj2 (proj2 (proj2 (proj2 H)))) ].
Defined.

(** ** Threshold evaluation *)

(** [(present / total) * 100 < 75] on the counts of a non-empty period. *)
Lemma percent_below_75 (present total : Z) :
  0 < total ->
  py_lt (percent_of present total) (PyInt 75) = true <-> 100 * present < 75 * total.
Proof.
  intro Ht. unfold py_lt. rewrite Qlt_bool_iff.
  destruct total as [ | t | t ]; try lia.
  unfold percent_of, num_val, Qlt, Qdiv, Qmult, Qinv, inject_Z.
  cbn [Qnum Qden]. rewrite ?Pos2Z.inj_mul. lia.
Qed.

(** app.py classifies by the two tests [total > 0] and [percentage < 75]:
    with rows in the period the student is alerted exactly when the
    percentage is strictly below 75; exactly 75 is not alerted, and no class
    attended out of some is. *)
Lemma legacy_alert_iff_below_75 (db : Legacy.Db) (c : Z) (course : Course.t)
    (u : User.t) :
  let total := Legacy.stats_total db (User.id u) c in
  let present := Legacy.stats_present db (User.id u) c in
  0 < total ->
  (100 * present < 75 * total ->
   Legacy.alert_student db c course u
   = [mkAlertCall (User.id u) (User.email u) (User.full_name u) (Course.name course)
        (percent_of present total)])
  /\ (75 * total <= 100 * present -> Legacy.alert_student db c course u = [])
  /\ (present = 0 -> Legacy.alert_student db c course u <> []).
Proof.
  intros total present Ht. unfold Legacy.alert_student. fold total present.
  apply Z.ltb_lt in Ht as Hb. rewrite Hb.
  pose proof (percent_below_75 present total Ht) as Hiff.
  destruct (py_lt (percent_of present total) (PyInt 75)) eqn:E.
  - assert (100 * present < 75 * total) by now apply Hiff.
    split; [ reflexivity | split; [ lia | discriminate ] ].
  - assert (~ 100 * present < 75 * total) by (intro H; apply Hiff in H; discriminate).
    split; [ lia | split; [ reflexivity | ] ].
    intros H1. rewrite H1 in H. lia.
Qed.

(** services.py classifies by [percentage < ATTENDANCE_THRESHOLD and
    percentage > 0]: no call of the pass carries a percentage of zero. *)
Lemma services_alert_needs_positive_percentage (env : Orm.Env) (mail : Orm.Notifier)
    (db : Orm.Db) (c : Z) (sd ed : option Z) (call : AlertCall) :
  In call (Orm.emails (Orm.check_and_send_alerts env mail db c sd ed)) ->
  (0 < num_val (alert_percentage call))%Q
  /\ (num_val (alert_percentage call) < num_val (ATTENDANCE_THRESHOLD (Orm.cfg env)))%Q.
Proof.
  intro Hin. apply pass_calls in Hin. destruct Hin as (_ & Hlt & Hgt).
  unfold py_gt, py_lt in *. rewrite !Qlt_bool_iff in *. auto.
Qed.

(** C4 (as the code has it).  Bob has two rows in the window and attended
    neither class: his percentage is zero, below the threshold of 75.  The
    pass of services.py alerts Alice and passes Bob over; the pass of
    app.py alerts both. *)
Theorem services_pass_skips_student_who_attended_nothing :
  let pass := Orm.check_and_send_alerts Scenario.env Scenario.mail_ok
                Scenario.orm_db 10 Scenario.window_start Scenario.window_end in
  let bob := Orm.get_attendance_percentage Scenario.orm_db 2 10
               Scenario.window_start Scenario.window_end in
  count (Orm.percentage_query Scenario.orm_db 2 10
           Scenario.window_start Scenario.window_end) = 2
  /\ py_eq bob (PyInt 0) = true
  /\ py_lt bob (ATTENDANCE_THRESHOLD Scenario.config) = true
  /\ map alert_user (Orm.emails pass) = [1]
  /\ Orm.notifications (Orm.db_after pass)
     = [Notification.mk 1 "Low Attendance Alert" "Maths" (PyFloat (100 # 2))
          "attendance_alert"]
  /\ map alert_user (Legacy.check_and_send_alerts Scenario.legacy_db 10) = [1; 2].
Proof. vm_compute. repeat split. Qed.

(** ** Percentages and summaries *)

Lemma percent_of_nothing (total : Z) :
  py_eq (PyInt 0) (percent_of 0 total) = true
  /\ py_gt (percent_of 0 total) (PyInt 0) = false.
Proof.
  unfold py_eq, py_gt, py_lt, Qlt_bool, percent_of, num_val. split.
  - apply Qeq_bool_iff. unfold Qeq. simpl. reflexivity.
  - apply negb_false_iff, Qle_bool_iff. unfold Qle. simpl. lia.
Qed.

(** C5 (as the code has it).  With no row in the window
    ([total_classes == 0]) [get_attendance_percentage] returns the number
    zero, which compares equal to the percentage of any student none of
    whose rows is Present, and fails the callers' test [percentage > 0]
    just as that percentage does. *)
Theorem no_data_percentage_is_the_number_zero (db : Orm.Db) (s c : Z)
    (sd ed : option Z) :
  count (Orm.percentage_query db s c sd ed) = 0 ->
  let nodata := Orm.get_attendance_percentage db s c sd ed in
  nodata = PyInt 0
  /\ forall (db' : Orm.Db) (s' c' : Z) (sd' ed' : option Z),
       count (filter Attendance.is_present (Orm.percentage_query db' s' c' sd' ed')) = 0 ->
       let zero := Orm.get_attendance_percentage db' s' c' sd' ed' in
       py_eq nodata zero = true
       /\ py_gt nodata (PyInt 0) = false
       /\ py_gt zero (PyInt 0) = false.
Proof.
  intros Hnone nodata.
  assert (Hnodata : nodata = PyInt 0).
  { subst nodata. unfold Orm.get_attendance_percentage. now rewrite Hnone. }
  split; [ exact Hnodata | ].
  intros db' s' c' sd' ed' Hzero zero. rewrite Hnodata.
  subst zero. unfold Orm.get_attendance_percentage. rewrite Hzero.
  destruct (count (Orm.percentage_query db' s' c' sd' ed') =? 0).
  - repeat split.
  - destruct (percent_of_nothing (count (Orm.percentage_query db' s' c' sd' ed')))
      as [He Hg].
    repeat split; assumption.
Qed.

(** C5 (counterexample).  Carol has no row and Bob has two, both Absent.
    The percentage computed for Carol is the integer zero; it equals the
    one computed for Bob, and neither passes [percentage > 0]. *)
Lemma carol_and_bob_get_the_same_percentage :
  let carol := Orm.get_attendance_percentage Scenario.orm_db 3 10 None None in
  let bob := Orm.get_attendance_percentage Scenario.orm_db 2 10 None None in
  count (Orm.percentage_query Scenario.orm_db 3 10 None None) = 0
  /\ count (Orm.percentage_query Scenario.orm_db 2 10 None None) = 2
  /\ carol = PyInt 0
  /\ py_eq carol bob = true
  /\ py_gt carol (PyInt 0) = py_gt bob (PyInt 0).
Proof. vm_compute. repeat split. Qed.

(** The statement above at Carol (no row) and Bob (two rows, both Absent). *)
Lemma no_data_percentage_is_the_number_zero_at_carol :
  Orm.get_attendance_percentage Scenario.orm_db 3 10 None None = PyInt 0
  /\ py_eq (Orm.get_attendance_percentage Scenario.orm_db 3 10 None None)
       (Orm.get_attendance_percentage Scenario.orm_db 2 10 None None) = true.
Proof.
  pose proof (no_data_percentage_is_the_number_zero Scenario.orm_db 3 10 None None
                eq_refl) as H.
  split; [ exact (proj1 H) | ].
  exact (proj1 (proj2 H Scenario.orm_db 2 10 None None eq_refl)).
Defined.

(** The rows of a student's percentage query are rows of the course's
    summary query over the same window. *)
Lemma percentage_rows_are_course_rows (db : Orm.Db) (s c : Z) (sd ed : option Z)
    (a : Attendance.t) :
  In a (Orm.percentage_query db s c sd ed) ->
  In a (filter (Orm.in_window sd ed)
          (filter (fun a => Attendance.course_id a =? c) (Orm.attendance db))).
Proof.
  unfold Orm.percentage_query. rewrite !filter_In, andb_true_iff. tauto.
Qed.





(** * Further properties of the code *)

(** ** Recording attendance through app.py *)

Lemma filter_filter {A : Type} (f g : A -> bool) (l : list A) :
  filter f (filter g l) = filter (fun a => g a && f a) l.
Proof.
  induction l as [ | a l IH ]; simpl; [ reflexivity | ].
  destruct (g a); simpl; [ | exact IH ].
  destruct (f a); now rewrite IH.
Qed.

Lemma filter_all {A : Type} (f : A -> bool) (l : list A) :
  (forall a, In a l -> f a = true) -> filter f l = l.
Proof.
  induction l as [ | a l IH ]; intro H; simpl; [ reflexivity | ].
  rewrite (H a (or_introl eq_refl)), IH; [ reflexivity | ].
  intros b Hb. apply H. now right.
Qed.

Lemma form_rows_submitted (c d : Z) (present all : list Z) :
  forall ids a,
    (forall s, In s ids -> In s all) ->
    In a (form_rows c d ids present) -> submitted all c d a = true.
Proof.
  induction ids as [ | s ids IH ]; intros a Hsub; simpl; [ intros [] | ].
  rewrite in_app_iff. intros [ Hin | Hin ].
  - destruct (py_in s ids); [ destruct Hin | ].
    destruct Hin as [ <- | [] ]. unfold submitted. simpl.
    rewrite !Z.eqb_refl.
    assert (H : py_in s all = true) by (apply py_in_iff, Hsub; now left).
    now rewrite H.
  - apply IH; [ | exact Hin ]. intros x Hx. apply Hsub. now right.
Qed.

(** The table the loop of [take_attendance] leaves: the rows outside the
    submitted keys, in their order, then the rows of the form. *)
Lemma legacy_loop_shape (c d : Z) (present : list Z) :
  forall (ids : list Z) (rows : list Attendance.t),
    Legacy.take_attendance_loop c d ids present rows
    = filter (fun a => negb (submitted ids c d a)) rows
      ++ form_rows c d ids present.
Proof.
  induction ids as [ | s ids IH ]; intro rows; simpl.
  - rewrite app_nil_r. symmetry. apply filter_all. reflexivity.
  - rewrite IH. unfold Legacy.insert_or_replace.
    rewrite filter_app, filter_filter, <- app_assoc. f_equal.
    + apply filter_ext. intro a.
      unfold submitted, Attendance.same_key, Attendance.has_key, py_in. simpl.
      destruct (Attendance.student_user_id a =? s);
        destruct (existsb _ ids);
        destruct (Attendance.course_id a =? c);
        destruct (Attendance.date a =? d); reflexivity.
    + f_equal. simpl. unfold submitted. simpl. rewrite !Z.eqb_refl, !andb_true_r.
      now destruct (py_in s ids).
Qed.

(** X1.  [take_attendance] of app.py, on any table and any form, leaves the
    attendance table made of the rows outside the submitted keys, in the
    order they had, followed by one row per listed student with the status
    of the form; users and courses are not written. *)
Theorem legacy_take_attendance_table (db : Legacy.Db) (form : TakeForm) :
  let db' := fst (Legacy.take_attendance db form) in
  Legacy.attendance db'
  = filter (fun a => negb (submitted (all_students form) (form_course_id form)
                             (form_date form) a)) (Legacy.attendance db)
    ++ form_rows (form_course_id form) (form_date form)
         (all_students form) (present_students form)
  /\ Legacy.users db' = Legacy.users db
  /\ Legacy.courses db' = Legacy.courses db.
Proof. simpl. split; [ apply legacy_loop_shape | split; reflexivity ]. Qed.

(** X2.  Sending a form for a course and day after an earlier form with
    the same list of students overwrites it completely: the table is the
    one the later form alone would have left.  In particular sending a form
    twice changes nothing the second time. *)
Theorem legacy_take_attendance_last_form_wins (db : Legacy.Db) (c d : Z)
    (all present1 present2 : list Z) :
  let first := fst (Legacy.take_attendance db (mkTakeForm c d all present1)) in
  let form2 := mkTakeForm c d all present2 in
  fst (Legacy.take_attendance first form2) = fst (Legacy.take_attendance db form2)
  /\ fst (Legacy.take_attendance first (mkTakeForm c d all present1)) = first.
Proof.
  assert (H : forall p1 p2 rows,
             Legacy.take_attendance_loop c d all p2
               (Legacy.take_attendance_loop c d all p1 rows)
             = Legacy.take_attendance_loop c d all p2 rows).
  { intros p1 p2 rows. rewrite !legacy_loop_shape, filter_app. f_equal.
    rewrite <- app_nil_r. f_equal.
    - apply filter_absorb. auto.
    - apply filter_nil_iff. intros a Ha. apply negb_false_iff.
      apply (form_rows_submitted c d p1 all all a); auto. }
  simpl. unfold Legacy.set_attendance. simpl. split; f_equal; apply H.
Qed.

(** ** Recording attendance through routes/faculty.py *)

Lemma existsb_app_false {A : Type} (f : A -> bool) (l l' : list A) :
  existsb f (l ++ l') = false <-> existsb f l = false /\ existsb f l' = false.
Proof. rewrite existsb_app. apply orb_false_iff. Qed.

Lemma insert_row_mk (s c d : Z) (st : string) (rows : list Attendance.t) :
  Orm.insert_row (Attendance.mk s c d st) rows
  = if existsb (Attendance.has_key s c d) rows then Raise IntegrityError
    else Ok (rows ++ [Attendance.mk s c d st]).
Proof. reflexivity. Qed.

(** The flush succeeds on a list of students without repetition none of
    whom has a row for the course and day, and appends the pending rows. *)
Lemma flush_fresh (c d : Z) (present : list Z) :
  forall (ids : list Z) (rows : list Attendance.t),
    NoDup ids ->
    (forall s, In s ids -> existsb (Attendance.has_key s c d) rows = false) ->
    Orm.flush (Orm.take_attendance_loop c d ids present) rows
    = Ok (rows ++ Orm.take_attendance_loop c d ids present).
Proof.
  induction ids as [ | s ids IH ]; intros rows Hnd Hfresh; simpl.
  - now rewrite app_nil_r.
  - rewrite insert_row_mk, (Hfresh s (or_introl eq_refl)).
    inversion Hnd as [ | s' ids' Hnotin Hnd' ]; subst.
    rewrite IH; [ now rewrite <- app_assoc | assumption | ].
    intros x Hx. apply existsb_app_false. split.
    + apply Hfresh. now right.
    + simpl. rewrite has_key_mk, orb_false_r.
      destruct (s =? x) eqn:E; [ | reflexivity ].
      apply Z.eqb_eq in E. subst x. contradiction.
Qed.

(** Conversely a flush that succeeds was given such a list. *)
Lemma flush_ok_inv (c d : Z) (present : list Z) :
  forall (ids : list Z) (rows rows' : list Attendance.t),
    Orm.flush (Orm.take_attendance_loop c d ids present) rows = Ok rows' ->
    NoDup ids
    /\ forall s, In s ids -> existsb (Attendance.has_key s c d) rows = false.
Proof.
  induction ids as [ | s ids IH ]; intros rows rows'; simpl.
  - intros _. split; [ constructor | intros s [] ].
  - rewrite insert_row_mk.
    destruct (existsb (Attendance.has_key s c d) rows) eqn:E; [ discriminate | ].
    intro H. apply IH in H. destruct H as [Hnd Hfresh].
    assert (Hnotin : ~ In s ids).
    { intro Hin. apply Hfresh in Hin. apply existsb_app_false in Hin.
      destruct Hin as [_ Hin]. simpl in Hin.
      rewrite has_key_mk, !Z.eqb_refl in Hin. discriminate. }
    split; [ now constructor | ].
    intros x [ <- | Hx ]; [ exact E | ].
    apply Hfresh in Hx. now apply existsb_app_false in Hx.
Qed.

(** X3.  [take_attendance] of routes/faculty.py stores a form when, and
    only when, no student is listed twice, no listed student already has a
    row for the course and day, and the store takes the commit.  It then
    appends one row per listed student, in the order of the list, Present
    for the ticked ones and Absent for the others, and writes neither users
    nor courses.  Otherwise it flashes the error, sends no mail and leaves
    the whole database as it was. *)
Theorem orm_take_attendance_all_or_nothing (env : Orm.Env) (mail : Orm.Notifier)
    (db : Orm.Db) (form : TakeForm) :
  let c := form_course_id form in
  let d := form_date form in
  let out := Orm.take_attendance env mail db form in
  (Orm.flashed out = Orm.FlashSuccess
   <-> NoDup (all_students form)
       /\ (forall s, In s (all_students form) ->
             existsb (Attendance.has_key s c d) (Orm.attendance db) = false)
       /\ Orm.store_up env Orm.Commit = true)
  /\ (Orm.flashed out = Orm.FlashSuccess ->
      Orm.attendance (Orm.route_db out)
      = Orm.attendance db
        ++ map (fun s => Attendance.mk s c d (form_status s (present_students form)))
             (all_students form)
      /\ Orm.users (Orm.route_db out) = Orm.users db
      /\ Orm.courses (Orm.route_db out) = Orm.courses db)
  /\ (Orm.flashed out = Orm.FlashDanger ->
      Orm.route_db out = db /\ Orm.route_emails out = []).
Proof.
  intros c d out.
  assert (Hmap : forall ids,
             Orm.take_attendance_loop c d ids (present_students form)
             = map (fun s => Attendance.mk s c d
                               (form_status s (present_students form))) ids).
  { induction ids as [ | s ids IH ]; simpl; [ reflexivity | now rewrite IH ]. }
  subst out. unfold Orm.take_attendance. fold c d.
  destruct (Orm.flush _ (Orm.attendance db)) as [ rows' | e ] eqn:Eflush.
  - pose proof (flush_ok_inv c d _ _ _ _ Eflush) as [Hnd Hfresh].
    rewrite (flush_fresh c d _ _ _ Hnd Hfresh) in Eflush.
    injection Eflush as <-.
    unfold Orm.run. destruct (Orm.store_up env Orm.Commit); simpl.
    + destruct (pass_keeps_ledger env mail
                  (Orm.set_attendance db
                     (Orm.attendance db
                      ++ Orm.take_attendance_loop c d (all_students form)
                           (present_students form))) c None None)
        as (Ha & Hu & Hc).
      repeat split; auto; try discriminate.
      rewrite Ha. simpl. now rewrite Hmap.
    + repeat split; auto; try discriminate; intros (_ & _ & H); discriminate.
  - simpl. repeat split; auto; try discriminate.
    intros (Hnd & Hfresh & _).
    rewrite (flush_fresh c d _ _ _ Hnd Hfresh) in Eflush. discriminate.
Qed.

(** ** Who is alerted, exactly *)

(** X4.  The pass of app.py alerts nobody when the course does not exist;
    otherwise it calls the notifier once for each user whose role is
    student, who has a row for the course in the fixed period, and whose
    attended share of those rows is strictly below three quarters, in the
    order of the users table, with that share as the percentage. *)
Theorem legacy_pass_alerts_exactly (db : Legacy.Db) (c : Z) :
  let total u := Legacy.stats_total db (User.id u) c in
  let present u := Legacy.stats_present db (User.id u) c in
  Legacy.check_and_send_alerts db c
  = match find (fun course => Course.id course =? c) (Legacy.courses db) with
    | None => []
    | Some course =>
        map (fun u => mkAlertCall (User.id u) (User.email u) (User.full_name u)
                        (Course.name course) (percent_of (present u) (total u)))
          (filter (fun u => (0 <? total u) && (100 * present u <? 75 * total u))
             (filter (fun u => String.eqb (User.role u) "student")
                (Legacy.users db)))
    end.
Proof.
  intros total present. unfold Legacy.check_and_send_alerts.
  destruct (find _ (Legacy.courses db)) as [ course | ]; [ | reflexivity ].
  induction (filter _ (Legacy.users db)) as [ | u students IH ];
    cbn [Legacy.alert_loop filter map]; [ reflexivity | ].
  rewrite IH. unfold Legacy.alert_student. fold (total u) (present u).
  destruct (0 <? total u) eqn:Et; cbn [andb app]; [ | reflexivity ].
  apply Z.ltb_lt in Et.
  pose proof (percent_below_75 (present u) (total u) Et) as Hiff.
  destruct (py_lt _ _) eqn:Ep.
  - assert (H : (100 * present u <? 75 * total u) = true)
      by (apply Z.ltb_lt; now apply Hiff).
    now rewrite H.
  - assert (H : (100 * present u <? 75 * total u) = false).
    { apply Z.ltb_ge. apply Z.nlt_ge. intro Hlt. apply Hiff in Hlt. discriminate. }
    now rewrite H.
Qed.

(** The loop over a list that starts with students whose rows the store
    can count: their alerts, then whatever the rest of the list gives. *)
Lemma alert_loop_healthy_prefix (env : Orm.Env) (mail : Orm.Notifier) (db : Orm.Db)
    (c : Z) (course : Course.t) (sd ed : option Z) (rest : list User.t) :
  let ws := fst (Orm.alert_window env sd ed) in
  let we := snd (Orm.alert_window env sd ed) in
  forall pre : list User.t,
    (forall v, In v pre -> Orm.store_up env (Orm.CountAttendance (User.id v)) = true) ->
    Orm.alert_loop env mail db c course ws we (pre ++ rest)
    = (match fst (Orm.alert_loop env mail db c course ws we rest) with
       | Ok added =>
           Ok (map (fun u => Orm.alert_notification u course
                               (window_percentage env db c sd ed u))
                 (filter (low_attendance env db c sd ed) pre) ++ added)
       | Raise e => Raise e
       end,
       map (fun u => Orm.alert_call u course (window_percentage env db c sd ed u))
         (filter (low_attendance env db c sd ed) pre)
       ++ snd (Orm.alert_loop env mail db c course ws we rest)).
Proof.
  intros ws we. induction pre as [ | u pre IH ]; intro Hup.
  - cbn [app filter map].
    destruct (Orm.alert_loop env mail db c course ws we rest) as [[added | e] sent];
      reflexivity.
  - cbn [app Orm.alert_loop filter]. unfold Orm.run.
    rewrite (Hup u (or_introl eq_refl)).
    rewrite IH by (intros v Hv; apply Hup; now right).
    change (Orm.get_attendance_percentage db (User.id u) c ws we)
      with (window_percentage env db c sd ed u).
    change (py_lt (window_percentage env db c sd ed u)
              (ATTENDANCE_THRESHOLD (Orm.cfg env))
            && py_gt (window_percentage env db c sd ed u) (PyInt 0))
      with (low_attendance env db c sd ed u).
    destruct (low_attendance env db c sd ed u); [ | reflexivity ].
    destruct (fst (Orm.alert_loop env mail db c course ws we rest)); reflexivity.
Qed.

(** X5.  With the store answering every operation and the course in the
    table, the pass of services.py calls the notifier exactly once for each
    active student whose percentage over the window is strictly between
    zero and the threshold, in the order of the users table, commits one
    notification for each of them, in the same order, and logs nothing. *)
Theorem services_pass_alerts_exactly (env : Orm.Env) (mail : Orm.Notifier)
    (db : Orm.Db) (c : Z) (sd ed : option Z) (course : Course.t) :
  (forall op, Orm.store_up env op = true) ->
  find (fun x => Course.id x =? c) (Orm.courses db) = Some course ->
  let alerted := filter (low_attendance env db c sd ed) (active_students db) in
  let pass := Orm.check_and_send_alerts env mail db c sd ed in
  Orm.emails pass
  = map (fun u => Orm.alert_call u course (window_percentage env db c sd ed u))
      alerted
  /\ Orm.db_after pass
     = Orm.add_notifications db
         (map (fun u => Orm.alert_notification u course
                          (window_percentage env db c sd ed u)) alerted)
  /\ Orm.errors_logged pass = [].
Proof.
  intros Hup Hfind alerted pass. subst pass alerted.
  unfold Orm.check_and_send_alerts, Orm.alerts_body, Orm.run.
  rewrite !Hup, Hfind.
  destruct (Orm.alert_window env sd ed) as [ws we] eqn:Ew.
  pose proof (alert_loop_healthy_prefix env mail db c course sd ed []
                (active_students db) (fun v _ => Hup _)) as H.
  rewrite Ew in H. cbn [fst snd Orm.alert_loop] in H.
  rewrite !app_nil_r in H. unfold active_students in H. rewrite H.
  repeat split.
Qed.

(** The statement above for the small school: Alice alone is alerted. *)
Lemma services_pass_alerts_exactly_at_school :
  let pass := Orm.check_and_send_alerts Scenario.env Scenario.mail_ok
                Scenario.orm_db 10 Scenario.window_start Scenario.window_end in
  Orm.emails pass
  = map (fun u => Orm.alert_call u Scenario.maths
                    (window_percentage Scenario.env Scenario.orm_db 10
                       Scenario.window_start Scenario.window_end u))
      (filter (low_attendance Scenario.env Scenario.orm_db 10
                 Scenario.window_start Scenario.window_end)
         (active_students Scenario.orm_db))
  /\ map alert_user (Orm.emails pass) = [1].
Proof.
  split; [ | reflexivity ].
  exact (proj1 (services_pass_alerts_exactly Scenario.env Scenario.mail_ok
                  Scenario.orm_db 10 Scenario.window_start Scenario.window_end
                  Scenario.maths (fun _ => eq_refl) eq_refl)).
Defined.

(** X6.  When the store fails while counting the rows of one student, the
    students before that one in the users table have been mailed, nobody
    after is, and nothing of the pass is committed: the database is the one
    the pass started from, the mailed students included, and one error is
    logged. *)
Theorem store_failure_keeps_mails_and_drops_notifications (env : Orm.Env)
    (mail : Orm.Notifier) (db : Orm.Db) (c : Z) (sd ed : option Z)
    (course : Course.t) (pre post : list User.t) (u : User.t) :
  Orm.store_up env Orm.GetCourse = true ->
  Orm.store_up env Orm.ListStudents = true ->
  find (fun x => Course.id x =? c) (Orm.courses db) = Some course ->
  active_students db = pre ++ u :: post ->
  (forall v, In v pre -> Orm.store_up env (Orm.CountAttendance (User.id v)) = true) ->
  Orm.store_up env (Orm.CountAttendance (User.id u)) = false ->
  let pass := Orm.check_and_send_alerts env mail db c sd ed in
  Orm.emails pass
  = map (fun v => Orm.alert_call v course (window_percentage env db c sd ed v))
      (filter (low_attendance env db c sd ed) pre)
  /\ Orm.db_after pass = db
  /\ Orm.errors_logged pass = [OperationalError].
Proof.
  intros Hc Hl Hfind Hsplit Hpre Hu pass. subst pass.
  unfold Orm.check_and_send_alerts, Orm.alerts_body, Orm.run.
  rewrite Hc, Hl, Hfind.
  destruct (Orm.alert_window env sd ed) as [ws we] eqn:Ew.
  fold (active_students db). rewrite Hsplit.
  pose proof (alert_loop_healthy_prefix env mail db c course sd ed (u :: post)
                pre Hpre) as H.
  rewrite Ew in H. cbn [fst snd] in H. rewrite H.
  cbn [Orm.alert_loop]. unfold Orm.run. rewrite Hu. cbn [fst snd].
  rewrite app_nil_r. repeat split.
Qed.

(** The statement above for the small school on the day of the outage:
    Alice is mailed and gets no notification. *)
Lemma store_failure_keeps_mails_and_drops_notifications_at_school :
  let pass := Orm.check_and_send_alerts Outage.env_bob_down Scenario.mail_ok
                Scenario.orm_db 10 Scenario.window_start Scenario.window_end in
  map alert_user (Orm.emails pass) = [1]
  /\ Orm.db_after pass = Scenario.orm_db.
Proof.
  assert (Hpre : forall v, In v [Scenario.alice] ->
                 Orm.store_up Outage.env_bob_down
                   (Orm.CountAttendance (User.id v)) = true)
    by (intros v [ <- | [] ]; reflexivity).
  pose proof (store_failure_keeps_mails_and_drops_notifications
                Outage.env_bob_down Scenario.mail_ok Scenario.orm_db 10
                Scenario.window_start Scenario.window_end Scenario.maths
                [Scenario.alice] [Scenario.carol] Scenario.bob
                eq_refl eq_refl eq_refl eq_refl Hpre eq_refl) as H.
  split; [ | exact (proj1 (proj2 H)) ].
  rewrite (proj1 H). reflexivity.
Defined.

(** ** What the pass of services.py writes *)

Lemma alert_loop_added_kind (env : Orm.Env) (mail : Orm.Notifier) (db : Orm.Db)
    (c : Z) (course : Course.t) (sd ed : option Z) :
  forall students added n,
    fst (Orm.alert_loop env mail db c course sd ed students) = Ok added ->
    In n added ->
    Notification.title n = "Low Attendance Alert"%string
    /\ Notification.type n = "attendance_alert"%string
    /\ Notification.message_course n = Course.name course.
Proof.
  induction students as [ | u students IH ]; intros added n; simpl.
  - intro H. injection H as <-. intros [].
  - destruct (Orm.run env _ _) as [ pct | e ]; [ | discriminate ].
    destruct (py_lt _ _ && py_gt _ _); [ | apply IH ].
    destruct (Orm.alert_loop env mail db c course sd ed students)
      as [[added' | e] sent]; simpl in *; [ | discriminate ].
    intro H. injection H as <-. intros [ <- | Hin ]; [ simpl; auto | ].
    now apply (IH added').
Qed.

(** X7.  A call of [check_and_send_alerts] of services.py writes nothing
    but notifications: attendance, users and courses are as before, the
    notifications that were there are still there, in place, and what is
    added after them are low-attendance alerts for the course of the call,
    never more of them than notifier calls were made. *)
Theorem alert_pass_only_adds_alerts (env : Orm.Env) (mail : Orm.Notifier)
    (db : Orm.Db) (c : Z) (sd ed : option Z) :
  let pass := Orm.check_and_send_alerts env mail db c sd ed in
  Orm.attendance (Orm.db_after pass) = Orm.attendance db
  /\ Orm.users (Orm.db_after pass) = Orm.users db
  /\ Orm.courses (Orm.db_after pass) = Orm.courses db
  /\ exists added,
       Orm.notifications (Orm.db_after pass) = Orm.notifications db ++ added
       /\ (List.length added <= List.length (Orm.emails pass))%nat
       /\ forall n, In n added ->
            Notification.title n = "Low Attendance Alert"%string
            /\ Notification.type n = "attendance_alert"%string
            /\ exists course,
                 find (fun x => Course.id x =? c) (Orm.courses db) = Some course
                 /\ Notification.message_course n = Course.name course.
Proof.
  intro pass.
  destruct (pass_keeps_ledger env mail db c sd ed) as (Ha & Hu & Hc).
  fold pass in Ha, Hu, Hc. repeat (split; [ assumption | ]).
  subst pass. unfold Orm.check_and_send_alerts, Orm.alerts_body.
  destruct (Orm.run env Orm.GetCourse _) as [ [ course | ] | e ] eqn:E1;
    try (exists []; simpl; rewrite ?app_nil_r;
         repeat split; try lia; intros n []).
  apply run_ok in E1.
  destruct (Orm.alert_window env sd ed) as [ws we].
  destruct (Orm.run env Orm.ListStudents _) as [ students | e ];
    try (exists []; simpl; rewrite ?app_nil_r;
         repeat split; try lia; intros n []).
  destruct (Orm.alert_loop env mail db c course ws we students)
    as [[added | e] sent] eqn:E3;
    try (exists []; simpl; rewrite ?app_nil_r;
         repeat split; try lia; intros n []).
  destruct (Orm.run env Orm.Commit tt) as [ [] | e ];
    try (exists []; simpl; rewrite ?app_nil_r;
         repeat split; try lia; intros n []).
  exists added. simpl. split; [ reflexivity | ].
  pose proof (alert_loop_added env mail db c course ws we students added) as Hlen.
  rewrite E3 in Hlen. specialize (Hlen eq_refl).
  apply (f_equal (@List.length _)) in Hlen. rewrite !length_map in Hlen.
  split; [ simpl in Hlen; lia | ].
  intros n Hn.
  pose proof (alert_loop_added_kind env mail db c course ws we students added n)
    as Hkind.
  rewrite E3 in Hkind. destruct (Hkind eq_refl Hn) as (H1 & H2 & H3).
  repeat split; try assumption. exists course. now split.
Qed.

(** X8.  Whether the mail transport delivers or not changes nothing but
    the mail: the pass, and the two attendance forms that run it, make the
    same notifier calls and leave the same database under any two
    transports. *)
Theorem mail_outcome_changes_nothing (env : Orm.Env) (mail mail' : Orm.Notifier)
    (db : Orm.Db) (c : Z) (sd ed : option Z) (form : TakeForm) (mform : ModifyForm) :
  Orm.check_and_send_alerts env mail db c sd ed
  = Orm.check_and_send_alerts env mail' db c sd ed
  /\ Orm.take_attendance env mail db form = Orm.take_attendance env mail' db form
  /\ Orm.modify_attendance env mail db mform
     = Orm.modify_attendance env mail' db mform.
Proof.
  assert (H : forall db0 c0 sd0 ed0,
             Orm.check_and_send_alerts env mail db0 c0 sd0 ed0
             = Orm.check_and_send_alerts env mail' db0 c0 sd0 ed0).
  { intros. unfold Orm.check_and_send_alerts.
    now rewrite (alerts_body_reads_ledger env mail' mail db0 db0 c0 sd0 ed0). }
  split; [ apply H | split ].
  - unfold Orm.take_attendance.
    destruct (Orm.flush _ _); [ | reflexivity ].
    destruct (Orm.run env Orm.Commit tt); [ | reflexivity ]. now rewrite H.
  - unfold Orm.modify_attendance.
    destruct (Orm.modify_attendance_loop _ _ _ _ _ _); [ | reflexivity ].
    destruct (Orm.run env Orm.Commit tt); [ | reflexivity ]. now rewrite H.
Qed.

(** ** The unique key of the attendance table *)

Lemma same_key_iff (r a : Attendance.t) :
  Attendance.same_key r a = true <-> key_of a = key_of r.
Proof.
  unfold Attendance.same_key. rewrite has_key_iff. unfold key_of.
  split; [ intros (H1 & H2 & H3); now rewrite H1, H2, H3 | ].
  intro H. injection H as H1 H2 H3. auto.
Qed.

Lemma unique_keys_filter (f : Attendance.t -> bool) (rows : list Attendance.t) :
  unique_keys rows -> unique_keys (filter f rows).
Proof.
  unfold unique_keys. induction rows as [ | a rows IH ]; simpl; [ auto | ].
  intro H. apply NoDup_cons_iff in H. destruct H as [Hnotin Hnd].
  destruct (f a); simpl; [ | now apply IH ].
  constructor; [ | now apply IH ].
  intro Hin. apply Hnotin. apply in_map_iff in Hin.
  destruct Hin as (b & Hb & Hin). apply filter_In in Hin.
  apply in_map_iff. exists b. tauto.
Qed.

(** A row whose key is in no stored row can be appended. *)
Lemma unique_keys_snoc (r : Attendance.t) (rows : list Attendance.t) :
  unique_keys rows ->
  existsb (Attendance.same_key r) rows = false ->
  unique_keys (rows ++ [r]).
Proof.
  unfold unique_keys. intros Hnd Hex. rewrite map_app. apply NoDup_app.
  - exact Hnd.
  - simpl. constructor; [ intros [] | constructor ].
  - intros k Hk [ <- | [] ]. apply in_map_iff in Hk.
    destruct Hk as (a & Ha & Hin).
    assert (Hsame : Attendance.same_key r a = true) by now apply same_key_iff.
    assert (Htrue : existsb (Attendance.same_key r) rows = true)
      by (apply existsb_exists; now exists a).
    congruence.
Qed.

Lemma insert_or_replace_unique (r : Attendance.t) (rows : list Attendance.t) :
  unique_keys rows -> unique_keys (Legacy.insert_or_replace r rows).
Proof.
  intro H. unfold Legacy.insert_or_replace. apply unique_keys_snoc.
  - now apply unique_keys_filter.
  - destruct (existsb _ _) eqn:E; [ | reflexivity ].
    apply existsb_exists in E. destruct E as (a & Hin & Hsame).
    apply filter_In in Hin. destruct Hin as [_ Hneg].
    rewrite Hsame in Hneg. discriminate.
Qed.

Lemma legacy_loop_unique (c d : Z) (present : list Z) :
  forall (ids : list Z) (rows : list Attendance.t),
    unique_keys rows ->
    unique_keys (Legacy.take_attendance_loop c d ids present rows).
Proof.
  induction ids as [ | s ids IH ]; intros rows H; simpl; [ exact H | ].
  apply IH. now apply insert_or_replace_unique.
Qed.

Lemma flush_unique :
  forall (pending rows rows' : list Attendance.t),
    Orm.flush pending rows = Ok rows' -> unique_keys rows -> unique_keys rows'.
Proof.
  induction pending as [ | r pending IH ]; intros rows rows'; simpl.
  - intro H. injection H as <-. auto.
  - unfold Orm.insert_row.
    destruct (existsb (Attendance.same_key r) rows) eqn:E; [ discriminate | ].
    intros H Hu. apply (IH _ _ H). now apply unique_keys_snoc.
Qed.

Lemma modified_table_same_keys (ids : list Z) (c d : Z)
    (rows rows' : list Attendance.t) :
  modified_table ids c d rows rows' -> map key_of rows' = map key_of rows.
Proof.
  intro H. induction H as [ | a b l l' [(H1 & H2 & H3) _] _ IH ]; simpl;
    [ reflexivity | ].
  rewrite IH. unfold key_of. now rewrite H1, H2, H3.
Qed.

(** X9.  Every request that writes attendance keeps the table's unique
    key: on a table with at most one row per (student, course, date),
    [take_attendance] and [modify_attendance], of app.py and of
    routes/faculty.py, leave such a table, whether they succeed or fail. *)
Theorem writes_keep_one_row_per_key (ldb : Legacy.Db) (env : Orm.Env)
    (mail : Orm.Notifier) (db : Orm.Db) (form : TakeForm) (mform : ModifyForm) :
  unique_keys (Legacy.attendance ldb) ->
  unique_keys (Orm.attendance db) ->
  unique_keys (Legacy.attendance (fst (Legacy.take_attendance ldb form)))
  /\ unique_keys
       (Legacy.attendance (snd (fst (Legacy.modify_attendance ldb mform))))
  /\ unique_keys
       (Orm.attendance (Orm.route_db (Orm.take_attendance env mail db form)))
  /\ unique_keys
       (Orm.attendance (Orm.route_db (Orm.modify_attendance env mail db mform))).
Proof.
  intros HL HO. split; [ | split; [ | split ] ].
  - simpl. now apply legacy_loop_unique.
  - unfold Legacy.modify_attendance.
    destruct (Legacy.modify_attendance_loop _ _ _ _ _ _) as [ rows' | e ] eqn:E;
      simpl; [ | exact HL ].
    unfold unique_keys.
    rewrite (modified_table_same_keys (student_ids mform) (modify_course_id mform)
               (modify_date mform) (Legacy.attendance ldb) rows'); [ exact HL | ].
    eapply legacy_modify_loop_modifies; [ | exact E ]. auto.
  - unfold Orm.take_attendance.
    destruct (Orm.flush _ _) as [ rows' | e ] eqn:E; simpl; [ | exact HO ].
    destruct (Orm.run env Orm.Commit tt); simpl; [ | exact HO ].
    rewrite (proj1 (pass_keeps_ledger env mail (Orm.set_attendance db rows')
                      (form_course_id form) None None)).
    simpl. exact (flush_unique _ _ _ E HO).
  - unfold Orm.modify_attendance.
    destruct (Orm.modify_attendance_loop _ _ _ _ _ _) as [ rows' | e ] eqn:E;
      simpl; [ | exact HO ].
    destruct (Orm.run env Orm.Commit tt); simpl; [ | exact HO ].
    rewrite (proj1 (pass_keeps_ledger env mail (Orm.set_attendance db rows')
                      (modify_course_id mform) None None)).
    simpl. unfold unique_keys.
    rewrite (modified_table_same_keys (student_ids mform) (modify_course_id mform)
               (modify_date mform) (Orm.attendance db) rows'); [ exact HO | ].
    eapply orm_modify_loop_modifies; [ | exact E ]. auto.
Qed.

Lemma school_ledger_unique : unique_keys Scenario.ledger.
Proof.
  unfold unique_keys. simpl.
  repeat (constructor; [ simpl; intuition discriminate | ]). constructor.
Qed.

(** The statement above for the small school and a Wednesday form. *)
Lemma writes_keep_one_row_per_key_at_school :
  unique_keys
    (Legacy.attendance
       (fst (Legacy.take_attendance Scenario.legacy_db
               (mkTakeForm 10 739462 [1; 2; 3] [1; 3]))))
  /\ unique_keys
       (Orm.attendance
          (Orm.route_db
             (Orm.take_attendance Scenario.env Scenario.mail_ok Scenario.orm_db
                (mkTakeForm 10 739462 [1; 2; 3] [1; 3])))).
Proof.
  pose proof (writes_keep_one_row_per_key Scenario.legacy_db Scenario.env
                Scenario.mail_ok Scenario.orm_db
                (mkTakeForm 10 739462 [1; 2; 3] [1; 3])
                (mkModifyForm 10 Scenario.monday [1] ["Absent"%string])
                school_ledger_unique school_ledger_unique) as H.
  split; [ exact (proj1 H) | exact (proj1 (proj2 (proj2 H))) ].
Defined.

(** ** What a modification stores *)

Lemma has_key_same_columns (s c d : Z) (a b : Attendance.t) :
  same_columns a b -> Attendance.has_key s c d b = Attendance.has_key s c d a.
Proof.
  intros (H1 & H2 & H3). unfold Attendance.has_key. now rewrite H1, H2, H3.
Qed.

(** A modification for other students leaves the rows of a key alone. *)
Lemma modified_table_other_key (ids : list Z) (c d s : Z)
    (rows rows' : list Attendance.t) :
  modified_table ids c d rows rows' ->
  ~ In s ids ->
  filter (Attendance.has_key s c d) rows' = filter (Attendance.has_key s c d) rows
  /\ find (Attendance.has_key s c d) rows' = find (Attendance.has_key s c d) rows.
Proof.
  intros H Hs. induction H as [ | a b l l' [Hcol Hout] _ [IHf IHd] ]; simpl;
    [ split; reflexivity | ].
  rewrite (has_key_same_columns s c d a b Hcol).
  destruct (Attendance.has_key s c d a) eqn:E.
  - assert (Hb : b = a).
    { apply Hout. destruct (submitted ids c d a) eqn:Es; [ | reflexivity ].
      exfalso. apply Hs. unfold submitted in Es.
      apply andb_true_iff in Es. destruct Es as [Es _].
      apply andb_true_iff in Es. destruct Es as [Es _].
      apply py_in_iff in Es. apply has_key_iff in E.
      destruct E as (E1 & _). now rewrite E1 in Es. }
    subst b. rewrite IHf. split; reflexivity.
  - split; assumption.
Qed.

Lemma update_status_key (s c d : Z) (st : string) (rows rows' : list Attendance.t) :
  Legacy.update_status st s c d rows = Ok rows' ->
  filter (Attendance.has_key s c d) rows'
  = map (with_status st) (filter (Attendance.has_key s c d) rows).
Proof.
  unfold Legacy.update_status. destruct (_ && _); [ discriminate | ].
  intro H. injection H as <-.
  induction rows as [ | a rows IH ]; simpl; [ reflexivity | ].
  destruct (Attendance.has_key s c d a) eqn:E; simpl.
  - unfold Attendance.has_key in *. simpl. rewrite E. simpl.
    now rewrite IH.
  - rewrite E. exact IH.
Qed.

Lemma set_first_status_key (s c d : Z) (st : string) (rows : list Attendance.t) :
  find (Attendance.has_key s c d) (Orm.set_first_status s c d st rows)
  = option_map (with_status st) (find (Attendance.has_key s c d) rows).
Proof.
  induction rows as [ | a rows IH ]; simpl; [ reflexivity | ].
  destruct (Attendance.has_key s c d a) eqn:E; simpl.
  - unfold Attendance.has_key in *. simpl. now rewrite E.
  - now rewrite E.
Qed.

Lemma legacy_modify_loop_key (c d : Z) (statuses : list string) :
  forall (ids : list Z) (i : nat) (rows rows' : list Attendance.t),
    Legacy.modify_attendance_loop c d statuses i ids rows = Ok rows' ->
    NoDup ids ->
    forall (j : nat) (s : Z) (st : string),
      nth_error ids j = Some s ->
      nth_error statuses (i + j) = Some st ->
      filter (Attendance.has_key s c d) rows'
      = map (with_status st) (filter (Attendance.has_key s c d) rows).
Proof.
  induction ids as [ | s0 ids IH ]; intros i rows rows' Hloop Hnd j s st Hs Hst.
  - destruct j; discriminate.
  - simpl in Hloop.
    destruct (nth_error statuses i) as [ st0 | ] eqn:Est0; [ | discriminate ].
    destruct (Legacy.update_status st0 s0 c d rows) as [ rows1 | e ] eqn:Eup;
      [ | discriminate ].
    apply NoDup_cons_iff in Hnd. destruct Hnd as [Hnotin Hnd].
    destruct j as [ | j ]; simpl in Hs.
    + injection Hs as <-. rewrite Nat.add_0_r, Est0 in Hst. injection Hst as <-.
      rewrite <- (update_status_key s0 c d st0 rows rows1 Eup).
      apply (modified_table_other_key ids c d s0 rows1 rows'); [ | exact Hnotin ].
      eapply legacy_modify_loop_modifies; [ | exact Hloop ]. auto.
    + rewrite (IH (S i) rows1 rows' Hloop Hnd j s st Hs)
        by (now rewrite <- Nat.add_succ_comm in Hst).
      f_equal.
      apply (modified_table_other_key [s0] c d s rows rows1).
      * apply update_status_modifies with s0 st0; [ now left | exact Eup ].
      * intros [ -> | [] ]. apply Hnotin. eapply nth_error_In. exact Hs.
Qed.

Lemma orm_modify_loop_key (c d : Z) (statuses : list string) :
  forall (ids : list Z) (i : nat) (rows rows' : list Attendance.t),
    Orm.modify_attendance_loop c d statuses i ids rows = Ok rows' ->
    NoDup ids ->
    forall (j : nat) (s : Z) (st : string),
      nth_error ids j = Some s ->
      nth_error statuses (i + j) = Some st ->
      find (Attendance.has_key s c d) rows'
      = option_map (with_status st) (find (Attendance.has_key s c d) rows).
Proof.
  induction ids as [ | s0 ids IH ]; intros i rows rows' Hloop Hnd j s st Hs Hst.
  - destruct j; discriminate.
  - simpl in Hloop.
    apply NoDup_cons_iff in Hnd. destruct Hnd as [Hnotin Hnd].
    destruct j as [ | j ]; simpl in Hs.
    + injection Hs as <-. rewrite Nat.add_0_r in Hst.
      destruct (existsb (Attendance.has_key s0 c d) rows) eqn:Eex.
      * rewrite Hst in Hloop.
        rewrite <- set_first_status_key.
        apply (modified_table_other_key ids c d s0 _ rows'); [ | exact Hnotin ].
        eapply orm_modify_loop_modifies; [ | exact Hloop ]. auto.
      * assert (Hnone : find (Attendance.has_key s0 c d) rows = None).
        { destruct (find _ rows) as [ a | ] eqn:Ef; [ | reflexivity ].
          apply find_some in Ef. destruct Ef as [Hin Hk].
          assert (existsb (Attendance.has_key s0 c d) rows = true)
            by (apply existsb_exists; now exists a).
          congruence. }
        rewrite Hnone. simpl. rewrite <- Hnone.
        apply (modified_table_other_key ids c d s0 rows rows'); [ | exact Hnotin ].
        eapply orm_modify_loop_modifies; [ | exact Hloop ]. auto.
    + assert (Hne : ~ In s [s0]).
      { intros [ -> | [] ]. apply Hnotin. eapply nth_error_In. exact Hs. }
      rewrite <- Nat.add_succ_comm in Hst.
      destruct (existsb (Attendance.has_key s0 c d) rows).
      * destruct (nth_error statuses i) as [ st0 | ]; [ | discriminate ].
        rewrite (IH (S i) _ rows' Hloop Hnd j s st Hs Hst). f_equal.
        apply (modified_table_other_key [s0] c d s rows); [ | exact Hne ].
        apply set_first_status_modifies. now left.
      * exact (IH (S i) rows rows' Hloop Hnd j s st Hs Hst).
Qed.

(** X10.  A modification that goes through stores what was submitted: when
    no student is listed twice, the student at a position of the form with
    the status at the same position ends, in app.py, with every row of the
    key carrying that status and, in routes/faculty.py, with the first row
    of the key (the one the query returns) carrying it. *)
Theorem modify_attendance_stores_submitted_status (ldb : Legacy.Db) (env : Orm.Env)
    (mail : Orm.Notifier) (db : Orm.Db) (form : ModifyForm)
    (i : nat) (s : Z) (st : string) :
  NoDup (student_ids form) ->
  nth_error (student_ids form) i = Some s ->
  nth_error (statuses form) i = Some st ->
  let c := modify_course_id form in
  let d := modify_date form in
  (fst (fst (Legacy.modify_attendance ldb form)) = Ok tt ->
   filter (Attendance.has_key s c d)
     (Legacy.attendance (snd (fst (Legacy.modify_attendance ldb form))))
   = map (with_status st)
       (filter (Attendance.has_key s c d) (Legacy.attendance ldb)))
  /\ (Orm.flashed (Orm.modify_attendance env mail db form) = Orm.FlashSuccess ->
      find (Attendance.has_key s c d)
        (Orm.attendance (Orm.route_db (Orm.modify_attendance env mail db form)))
      = option_map (with_status st)
          (find (Attendance.has_key s c d) (Orm.attendance db))).
Proof.
  intros Hnd Hs Hst c d. split.
  - unfold Legacy.modify_attendance. fold c d.
    destruct (Legacy.modify_attendance_loop c d _ _ _ _) as [ rows' | e ] eqn:E;
      simpl; [ intros _ | discriminate ].
    exact (legacy_modify_loop_key c d _ _ _ _ _ E Hnd i s st Hs Hst).
  - unfold Orm.modify_attendance. fold c d.
    destruct (Orm.modify_attendance_loop c d _ _ _ _) as [ rows' | e ] eqn:E;
      simpl; [ | discriminate ].
    destruct (Orm.run env Orm.Commit tt); simpl; [ intros _ | discriminate ].
    rewrite (proj1 (pass_keeps_ledger env mail (Orm.set_attendance db rows')
                      c None None)).
    simpl. exact (orm_modify_loop_key c d _ _ _ _ _ E Hnd i s st Hs Hst).
Qed.

(** The statement above for Alice's Monday, changed to Absent. *)
Lemma modify_attendance_stores_submitted_status_at_alice :
  let form := mkModifyForm 10 Scenario.monday [1; 2] ["Absent"; "Present"]%string in
  filter (Attendance.has_key 1 10 Scenario.monday)
    (Legacy.attendance (snd (fst (Legacy.modify_attendance Scenario.legacy_db form))))
  = [Attendance.mk 1 10 Scenario.monday "Absent"].
Proof.
  assert (Hnd : NoDup [1; 2])
    by (repeat (constructor; [ simpl; intuition discriminate | ]); constructor).
  exact (proj1 (modify_attendance_stores_submitted_status Scenario.legacy_db
                  Scenario.env Scenario.mail_ok Scenario.orm_db
                  (mkModifyForm 10 Scenario.monday [1; 2] ["Absent"; "Present"]%string)
                  0%nat 1 "Absent"%string Hnd eq_refl eq_refl) eq_refl).
Defined.

Lemma legacy_modify_loop_short (c d : Z) (statuses : list string) :
  forall (ids : list Z) (i : nat) (rows : list Attendance.t),
    (i <= List.length statuses < i + List.length ids)%nat ->
    exists e, Legacy.modify_attendance_loop c d statuses i ids rows = Raise e.
Proof.
  induction ids as [ | s ids IH ]; intros i rows Hlen; simpl in *; [ lia | ].
  destruct (nth_error statuses i) as [ st | ] eqn:E; [ | now exists IndexError ].
  destruct (Legacy.update_status st s c d rows) as [ rows1 | e ];
    [ | now exists e ].
  apply IH.
  assert (i < List.length statuses)%nat by (apply nth_error_Some; congruence).
  lia.
Qed.

Lemma orm_modify_loop_short (c d : Z) (statuses : list string) :
  forall (ids : list Z) (i : nat) (rows : list Attendance.t),
    (i <= List.length statuses < i + List.length ids)%nat ->
    (forall s, In s ids -> existsb (Attendance.has_key s c d) rows = true) ->
    Orm.modify_attendance_loop c d statuses i ids rows = Raise IndexError.
Proof.
  induction ids as [ | s ids IH ]; intros i rows Hlen Hrows; simpl in *; [ lia | ].
  rewrite (Hrows s (or_introl eq_refl)).
  destruct (nth_error statuses i) as [ st | ] eqn:E; [ | reflexivity ].
  assert (i < List.length statuses)%nat by (apply nth_error_Some; congruence).
  apply IH; [ lia | ].
  intros x Hx.
  rewrite (modified_table_keys [s] c d rows (Orm.set_first_status s c d st rows)).
  - apply Hrows. now right.
  - apply set_first_status_modifies. now left.
Qed.

(** X11.  A modification form with fewer statuses than students is refused
    as a whole by app.py: the request ends in an exception and the database
    is the one it started from, also for the students whose status was
    given.  routes/faculty.py refuses it in the same way when every listed
    student has a row for the course and day. *)
Theorem modify_attendance_refuses_short_status_list (ldb : Legacy.Db)
    (env : Orm.Env) (mail : Orm.Notifier) (db : Orm.Db) (form : ModifyForm) :
  (List.length (statuses form) < List.length (student_ids form))%nat ->
  (exists e, Legacy.modify_attendance ldb form = (Raise e, ldb, []))
  /\ ((forall s, In s (student_ids form) ->
         existsb (Attendance.has_key s (modify_course_id form) (modify_date form))
           (Orm.attendance db) = true) ->
      Orm.modify_attendance env mail db form
      = Orm.mkRouteOutcome Orm.FlashDanger db []).
Proof.
  intro Hlen. split.
  - unfold Legacy.modify_attendance.
    destruct (legacy_modify_loop_short (modify_course_id form) (modify_date form)
                (statuses form) (student_ids form) 0 (Legacy.attendance ldb))
      as [e He]; [ lia | ].
    rewrite He. now exists e.
  - intro Hrows. unfold Orm.modify_attendance.
    rewrite orm_modify_loop_short; [ reflexivity | lia | exact Hrows ].
Qed.

(** The statement above for a form naming Alice and Bob with one status. *)
Lemma modify_attendance_refuses_short_status_list_at_school :
  exists e,
    Legacy.modify_attendance Scenario.legacy_db
      (mkModifyForm 10 Scenario.monday [1; 2] ["Absent"%string])
    = (Raise e, Scenario.legacy_db, []).
Proof.
  refine (proj1 (modify_attendance_refuses_short_status_list Scenario.legacy_db
                   Scenario.env Scenario.mail_ok Scenario.orm_db
                   (mkModifyForm 10 Scenario.monday [1; 2] ["Absent"%string]) _)).
  simpl. lia.
Defined.

(** ** The two summaries *)

(** X12.  [ReportService.get_attendance_summary] for a course whose id is
    not zero returns, when the store answers, the dictionary that
    [Course.get_attendance_summary] of that course returns for the same
    window; for the id zero it returns the summary of all courses, as it
    does for no id; and when the store fails it returns nothing. *)
Theorem report_summary_agrees_with_course_summary (env : Orm.Env) (db : Orm.Db)
    (c : Z) (sd ed : option Z) :
  (Orm.store_up env Orm.Summarize = true ->
   c <> 0 ->
   Orm.get_attendance_summary env db (Some c) sd ed
   = Some (Orm.course_get_attendance_summary db c sd ed))
  /\ Orm.get_attendance_summary env db (Some 0) sd ed
     = Orm.get_attendance_summary env db None sd ed
  /\ (Orm.store_up env Orm.Summarize = false ->
      Orm.get_attendance_summary env db (Some c) sd ed = None).
Proof.
  unfold Orm.get_attendance_summary, Orm.course_get_attendance_summary, Orm.run.
  repeat split.
  - intros Hup Hc. rewrite Hup.
    destruct (c =? 0) eqn:E; [ apply Z.eqb_eq in E; contradiction | reflexivity ].
  - intros Hdown. now rewrite Hdown.
Qed.

(** ** Sorting *)

From Stdlib Require Import Sorted Permutation.

Section Sorting.
Context {A : Type} (le : A -> A -> bool).
Hypothesis le_total : forall x y, le x y = true \/ le y x = true.
Hypothesis le_trans : forall x y z, le x y = true -> le y z = true -> le x z = true.

Lemma insert_by_perm (x : A) (l : list A) : Permutation (insert_by le x l) (x :: l).
Proof.
  induction l as [ | y l IH ]; simpl; [ reflexivity | ].
  destruct (le x y); [ reflexivity | ].
  rewrite IH. apply perm_swap.
Qed.

Lemma sort_by_perm (l : list A) : Permutation (sort_by le l) l.
Proof.
  induction l as [ | x l IH ]; simpl; [ reflexivity | ].
  rewrite insert_by_perm. now constructor.
Qed.

Lemma insert_by_sorted (x : A) (l : list A) :
  StronglySorted (fun a b => le a b = true) l ->
  StronglySorted (fun a b => le a b = true) (insert_by le x l).
Proof.
  induction l as [ | y l IH ]; intro H; simpl.
  - constructor; [ constructor | constructor ].
  - inversion H as [ | y' l' Hl Hy ]; subst.
    destruct (le x y) eqn:E.
    + constructor; [ exact H | ].
      constructor; [ exact E | ].
      apply Forall_forall. intros z Hz.
      apply le_trans with y; [ exact E | ].
      rewrite Forall_forall in Hy. now apply Hy.
    + constructor; [ now apply IH | ].
      apply Forall_forall. intros z Hz.
      apply (Permutation_in _ (insert_by_perm x l)) in Hz.
      destruct Hz as [ <- | Hz ].
      * destruct (le_total x y) as [ H1 | H1 ]; [ congruence | exact H1 ].
      * rewrite Forall_forall in Hy. now apply Hy.
Qed.

Lemma sort_by_sorted (l : list A) :
  StronglySorted (fun a b => le a b = true) (sort_by le l).
Proof.
  induction l as [ | x l IH ]; simpl; [ constructor | ].
  now apply insert_by_sorted.
Qed.

Lemma sort_by_length (l : list A) : List.length (sort_by le l) = List.length l.
Proof. apply Permutation_length, sort_by_perm. Qed.

Lemma sort_by_in (l : list A) (x : A) : In x (sort_by le l) <-> In x l.
Proof.
  split; apply Permutation_in; [ | symmetry ]; apply sort_by_perm.
Qed.

Lemma insert_by_filter_length (f : A -> bool) (x : A) (l : list A) :
  List.length (filter f (insert_by le x l)) = List.length (filter f (x :: l)).
Proof.
  induction l as [ | y l IH ]; simpl; [ reflexivity | ].
  destruct (le x y); simpl; [ reflexivity | ].
  simpl in IH. destruct (f y); simpl; rewrite IH; destruct (f x); reflexivity.
Qed.

Lemma sort_by_filter_length (f : A -> bool) (l : list A) :
  List.length (filter f (sort_by le l)) = List.length (filter f l).
Proof.
  induction l as [ | x l IH ]; simpl; [ reflexivity | ].
  rewrite insert_by_filter_length. simpl. destruct (f x); simpl; now rewrite IH.
Qed.

End Sorting.

(** In a sorted list, what a slice keeps comes before what it leaves. *)
Lemma sorted_firstn_skipn {A : Type} (R : A -> A -> Prop) (l : list A) :
  StronglySorted R l ->
  forall n x y, In x (firstn n l) -> In y (skipn n l) -> R x y.
Proof.
  induction 1 as [ | a l Hl IH Ha ]; intros n x y Hx Hy.
  - destruct n; destruct Hx.
  - destruct n as [ | n ]; [ destruct Hx | ]. simpl in Hx, Hy.
    destruct Hx as [ <- | Hx ]; [ | now apply (IH n) ].
    rewrite Forall_forall in Ha. apply Ha.
    rewrite <- (firstn_skipn n l). apply in_or_app. now right.
Qed.

Lemma sorted_firstn {A : Type} (R : A -> A -> Prop) (l : list A) (n : nat) :
  StronglySorted R l -> StronglySorted R (firstn n l).
Proof.
  intro H. revert n. induction H as [ | a l Hl IH Ha ]; intro n.
  - destruct n; constructor.
  - destruct n as [ | n ]; simpl; [ constructor | ].
    constructor; [ apply IH | ].
    rewrite Forall_forall in *. intros x Hx. apply Ha.
    rewrite <- (firstn_skipn n l). apply in_or_app. now left.
Qed.

(** ** The attendance trend *)

Lemma date_le_total (a b : Attendance.t) : date_le a b = true \/ date_le b a = true.
Proof. unfold date_le. rewrite !Z.leb_le. lia. Qed.

Lemma date_le_trans (a b e : Attendance.t) :
  date_le a b = true -> date_le b e = true -> date_le a e = true.
Proof. unfold date_le. rewrite !Z.leb_le. lia. Qed.

Lemma strongly_sorted_map {A B : Type} (R : A -> A -> Prop) (R' : B -> B -> Prop)
    (f : A -> B) (l : list A) :
  (forall a b, R a b -> R' (f a) (f b)) ->
  StronglySorted R l -> StronglySorted R' (map f l).
Proof.
  intros Hf H. induction H as [ | a l Hl IH Ha ]; simpl; constructor;
    [ exact IH | ].
  rewrite Forall_forall in *. intros y Hy. apply in_map_iff in Hy.
  destruct Hy as (x & <- & Hx). apply Hf. now apply Ha.
Qed.

(** The trend reads the rows the percentage over the same window counts. *)
Lemma trend_filter_is_percentage_query (today : Z) (db : Orm.Db) (s c days : Z) :
  filter (fun a => (Attendance.student_user_id a =? s)
                   && (Attendance.course_id a =? c)
                   && (today - days <=? Attendance.date a)
                   && (Attendance.date a <=? today))
    (Orm.attendance db)
  = Orm.percentage_query db s c (Some (today - days)) (Some today).
Proof.
  unfold Orm.percentage_query, Orm.in_window. rewrite filter_filter.
  apply filter_ext. intro a. now rewrite andb_assoc.
Qed.

Lemma sum_of_present_flags (l : list Attendance.t) :
  fold_right Z.add 0
    (map (fun record => if Attendance.is_present record then 1 else 0) l)
  = count (filter Attendance.is_present l).
Proof.
  unfold count. induction l as [ | a l IH ]; cbn [map fold_right filter];
    [ reflexivity | ].
  rewrite IH. destruct (Attendance.is_present a); cbn [List.length]; lia.
Qed.

(** X13.  When the window's first day [today - days] can be computed and
    the query goes through, [get_student_attendance_trend] returns the
    points of the rows of the student for the course in the last [days]
    days: each point carries the date and the status of its row and the
    flag 1 if that status is Present, 0 if not; the points are those of
    the rows that [get_attendance_percentage] over the same window counts,
    each row once, ordered by date, oldest first; and the number of points
    and the sum of the flags are the two counts from which that percentage
    is computed.  When the query fails, or [days] is beyond what a
    [timedelta] holds, or the first day falls outside the range of dates,
    the trend is empty. *)
Theorem trend_is_ordered_and_matches_percentage (query_ok : bool) (today : Z)
    (db : Orm.Db) (s c days : Z) :
  let trend := get_student_attendance_trend query_ok today db s c days in
  let rows := Orm.percentage_query db s c (Some (today - days)) (Some today) in
  let point_of (a : Attendance.t) :=
    mkTrendPoint (Attendance.date a) (Attendance.status a)
      (if String.eqb (Attendance.status a) "Present" then 1 else 0) in
  (query_ok = true /\ -999999999 <= days <= 999999999
   /\ 1 <= today - days <= 3652059 ->
   Permutation trend (map point_of rows)
   /\ StronglySorted (fun p q => trend_date p <= trend_date q) trend
   /\ (forall p, In p trend <->
         exists a, In a (Orm.attendance db)
                   /\ Attendance.student_user_id a = s
                   /\ Attendance.course_id a = c
                   /\ today - days <= Attendance.date a <= today
                   /\ p = point_of a)
   /\ count trend = count rows
   /\ Orm.get_attendance_percentage db s c (Some (today - days)) (Some today)
      = (if count trend =? 0 then PyInt 0
         else percent_of (fold_right Z.add 0 (map trend_present trend))
                (count trend)))
  /\ (query_ok = false -> trend = [])
  /\ (days < -999999999 \/ 999999999 < days -> trend = [])
  /\ (today - days < 1 \/ 3652059 < today - days -> trend = []).
Proof.
  intros trend rows point_of. subst trend.
  unfold get_student_attendance_trend, timedelta_in_range, date_in_range.
  split; [ | split; [ | split ] ].
  - intros (-> & Hdays & Hday).
    replace ((-999999999 <=? days) && (days <=? 999999999)) with true
      by (symmetry; apply andb_true_iff; rewrite !Z.leb_le; lia).
    replace ((1 <=? today - days) && (today - days <=? 3652059)) with true
      by (symmetry; apply andb_true_iff; rewrite !Z.leb_le; lia).
    cbn [andb]. unfold trend_records.
    rewrite trend_filter_is_percentage_query. fold rows.
    change (fun record : Attendance.t =>
              mkTrendPoint (Attendance.date record) (Attendance.status record)
                (if Attendance.is_present record then 1 else 0)) with point_of.
    assert (Hperm : Permutation (map point_of (sort_by date_le rows))
                      (map point_of rows))
      by (apply Permutation_map, sort_by_perm).
    assert (Hcount : count (map point_of (sort_by date_le rows)) = count rows)
      by (unfold count; now rewrite length_map, sort_by_length).
    split; [ exact Hperm | ]. split; [ | split; [ | split; [ exact Hcount | ] ] ].
    + apply strongly_sorted_map with (R := fun a b => date_le a b = true).
      * intros a b H. simpl. now apply Z.leb_le.
      * apply sort_by_sorted; [ apply date_le_total | apply date_le_trans ].
    + intro p. split.
      * intro Hp. apply (Permutation_in _ Hperm) in Hp.
        apply in_map_iff in Hp. destruct Hp as (a & <- & Ha).
        subst rows. unfold Orm.percentage_query in Ha.
        apply filter_In in Ha. destruct Ha as [Ha Hw].
        apply filter_In in Ha. destruct Ha as [Ha Hk].
        unfold Orm.in_window in Hw. apply andb_true_iff in Hw, Hk.
        rewrite !Z.leb_le in Hw. rewrite !Z.eqb_eq in Hk.
        exists a. repeat split; try tauto; lia.
      * intros (a & Ha & Hs & Hc & Hw & ->).
        apply (Permutation_in _ (Permutation_sym Hperm)).
        apply in_map. subst rows. unfold Orm.percentage_query.
        apply filter_In. split.
        -- apply filter_In. split; [ exact Ha | ].
           apply andb_true_iff. rewrite !Z.eqb_eq. tauto.
        -- unfold Orm.in_window. apply andb_true_iff. rewrite !Z.leb_le. lia.
    + rewrite Hcount, map_map.
      change (fun x : Attendance.t => trend_present (point_of x))
        with (fun record : Attendance.t =>
                if Attendance.is_present record then 1 else 0).
      rewrite sum_of_present_flags.
      unfold count at 2. rewrite sort_by_filter_length.
      fold (count (filter Attendance.is_present rows)). reflexivity.
  - intros ->. now destruct (_ && _).
  - intro Hdays.
    replace ((-999999999 <=? days) && (days <=? 999999999)) with false;
      [ reflexivity | ].
    symmetry. apply andb_false_iff. rewrite !Z.leb_gt. lia.
  - intro Hday.
    replace ((1 <=? today - days) && (today - days <=? 3652059)) with false;
      [ now rewrite andb_false_r | ].
    symmetry. apply andb_false_iff. rewrite !Z.leb_gt. lia.
Qed.

(** ** Class days *)

Lemma nodup_length_le (l : list Z) :
  (List.length (nodup Z.eq_dec l) <= List.length l)%nat.
Proof.
  apply NoDup_incl_length; [ apply NoDup_nodup | ].
  intros x Hx. now apply nodup_In in Hx.
Qed.

(** X14.  On a table with at most one row per (student, course, date) no
    student has more rows for a course in a window than the course has
    class days there ([get_total_classes]); the class days are in turn at
    most the rows the course summary counts, and there is a class day
    exactly when there is a row. *)
Theorem student_rows_within_class_days (db : Orm.Db) (s c : Z) (sd ed : option Z) :
  unique_keys (Orm.attendance db) ->
  count (Orm.percentage_query db s c sd ed) <= get_total_classes db c sd ed
  /\ get_total_classes db c sd ed
     <= Orm.total_records (Orm.course_get_attendance_summary db c sd ed)
  /\ (get_total_classes db c sd ed = 0
      <-> Orm.total_records (Orm.course_get_attendance_summary db c sd ed) = 0).
Proof.
  intro Hu. unfold get_total_classes, Orm.course_get_attendance_summary. simpl.
  set (rows := filter (Orm.in_window sd ed)
                 (filter (fun a => Attendance.course_id a =? c) (Orm.attendance db))).
  split; [ | split ].
  - unfold count. apply Nat2Z.inj_le.
    rewrite <- (length_map Attendance.date (Orm.percentage_query db s c sd ed)).
    apply NoDup_incl_length.
    + apply NoDup_map_inv with (f := fun z => (s, c, z)).
      rewrite map_map.
      assert (Hq : unique_keys (Orm.percentage_query db s c sd ed))
        by (unfold Orm.percentage_query; now repeat apply unique_keys_filter).
      unfold unique_keys in Hq.
      rewrite (map_ext_in key_of (fun a => (s, c, Attendance.date a))) in Hq;
        [ exact Hq | ].
      intros a Ha. unfold Orm.percentage_query in Ha.
      apply filter_In in Ha. destruct Ha as [Ha _].
      apply filter_In in Ha. destruct Ha as [_ Ha].
      apply andb_true_iff in Ha. rewrite !Z.eqb_eq in Ha.
      unfold key_of. destruct Ha as [-> ->]. reflexivity.
    + intros z Hz. apply nodup_In. apply in_map_iff in Hz.
      destruct Hz as (a & <- & Ha). apply in_map.
      now apply percentage_rows_are_course_rows in Ha.
  - unfold count. apply Nat2Z.inj_le.
    rewrite <- (length_map Attendance.date rows). apply nodup_length_le.
  - rewrite !count_zero_nil. split; intro H.
    + destruct rows as [ | a rows' ]; [ reflexivity | exfalso ].
      assert (Hin : In (Attendance.date a)
                      (nodup Z.eq_dec (map Attendance.date (a :: rows'))))
        by (apply nodup_In; now left).
      rewrite H in Hin. destruct Hin.
    + now rewrite H.
Qed.

(** The statement above for Alice in the small school. *)
Lemma student_rows_within_class_days_at_alice :
  count (Orm.percentage_query Scenario.orm_db 1 10 None None)
  <= get_total_classes Scenario.orm_db 10 None None.
Proof.
  exact (proj1 (student_rows_within_class_days Scenario.orm_db 1 10 None None
                  school_ledger_unique)).
Defined.

(** ** Notifications *)

(** The row [mark_first] sets is the first one with the given id and
    owner, and it is read afterwards. *)
Lemma mark_first_reads_the_row (notification_id user : Z) (notes : list Inbox.Note) :
  existsb (Inbox.owned notification_id user) notes = true ->
  exists before n after,
    notes = before ++ n :: after
    /\ Inbox.mark_first notification_id user notes = before ++ Inbox.read n :: after
    /\ Inbox.id n = notification_id /\ Inbox.user_id n = user
    /\ forall m, In m before -> Inbox.owned notification_id user m = false.
Proof.
  induction notes as [ | n notes IH ]; cbn [existsb Inbox.mark_first];
    [ discriminate | ].
  destruct (Inbox.owned notification_id user n) eqn:E.
  - intros _. exists [], n, notes.
    unfold Inbox.owned in E. apply andb_true_iff in E. rewrite !Z.eqb_eq in E.
    repeat split; try tauto. intros m [].
  - cbn [orb]. intro H. destruct (IH H) as (before & x & after & H1 & H2 & H3 & H4 & H5).
    exists (n :: before), x, after. cbn [app]. rewrite <- H1, H2.
    repeat split; try assumption.
    intros m [ <- | Hm ]; [ exact E | now apply H5 ].
Qed.

(** X15.  Marking a notification read respects its owner.
    [mark_notification_read] answers [True] exactly when the store works
    and the table has a notification with the given id that belongs to the
    given user; then the first such row of the table, and no other, is set
    read.  The table keeps its rows in place with their id, owner and
    date, no notification that was read becomes unread, and no notification
    of another user or with another id changes; a call answered [False]
    changes nothing. *)
Theorem marking_read_respects_owner (store_ok : bool) (notes : list Inbox.Note)
    (notification_id user : Z) :
  let one := Inbox.mark_notification_read store_ok notes notification_id user in
  let kept (n n' : Inbox.Note) :=
    Inbox.id n' = Inbox.id n
    /\ Inbox.user_id n' = Inbox.user_id n
    /\ Inbox.created_at n' = Inbox.created_at n
    /\ (Inbox.is_read n = true -> Inbox.is_read n' = true)
    /\ (Inbox.user_id n <> user -> n' = n) in
  (fst one = true
   <-> store_ok = true
       /\ exists n, In n notes /\ Inbox.id n = notification_id
                    /\ Inbox.user_id n = user)
  /\ (fst one = true ->
      exists before n after,
        notes = before ++ n :: after
        /\ snd one = before ++ Inbox.mkNote (Inbox.id n) (Inbox.user_id n) true
                                 (Inbox.created_at n) :: after
        /\ Inbox.id n = notification_id /\ Inbox.user_id n = user
        /\ forall m, In m before ->
                     ~ (Inbox.id m = notification_id /\ Inbox.user_id m = user))
  /\ Forall2 kept notes (snd one)
  /\ Forall2 (fun n n' => Inbox.id n <> notification_id -> n' = n) notes (snd one)
  /\ (fst one = false -> snd one = notes).
Proof.
  intros one kept.
  assert (Hrefl : forall l, Forall2 kept l l).
  { induction l; constructor; [ unfold kept; tauto | assumption ]. }
  assert (Hrefl' : forall l : list Inbox.Note,
             Forall2 (fun n n' => Inbox.id n <> notification_id -> n' = n) l l).
  { induction l; constructor; auto. }
  assert (Hfirst : Forall2 kept notes (Inbox.mark_first notification_id user notes)
                   /\ Forall2 (fun n n' => Inbox.id n <> notification_id -> n' = n)
                        notes (Inbox.mark_first notification_id user notes)).
  { induction notes as [ | n notes [IH1 IH2] ]; simpl;
      [ split; constructor | ].
    destruct (Inbox.owned notification_id user n) eqn:E.
    - unfold Inbox.owned in E. apply andb_true_iff in E.
      rewrite !Z.eqb_eq in E. destruct E as [E1 E2].
      split; constructor; auto.
      + unfold kept. simpl. repeat split; auto. intro H. contradiction.
      + intro H. contradiction.
    - split; constructor; auto. unfold kept. tauto. }
  subst one. unfold Inbox.mark_notification_read.
  destruct store_ok; cbn [fst snd].
  - destruct (existsb (Inbox.owned notification_id user) notes) eqn:E; cbn [fst snd].
    + pose proof (mark_first_reads_the_row notification_id user notes E) as Hrow.
      apply existsb_exists in E. destruct E as (n & Hin & Hown).
      unfold Inbox.owned in Hown. apply andb_true_iff in Hown.
      rewrite !Z.eqb_eq in Hown.
      split; [ split; [ intros _; split; [ reflexivity | exists n; tauto ]
                      | reflexivity ] | ].
      split.
      { intros _. destruct Hrow as (before & x & after & H1 & H2 & H3 & H4 & H5).
        exists before, x, after. repeat split; try assumption.
        intros m Hm [Hid Hu]. specialize (H5 m Hm). unfold Inbox.owned in H5.
        rewrite Hid, Hu, !Z.eqb_refl in H5. discriminate. }
      split; [ apply Hfirst | ]. split; [ apply Hfirst | discriminate ].
    + split.
      { split; [ discriminate | ].
        intros (_ & n & Hin & H1 & H2).
        assert (existsb (Inbox.owned notification_id user) notes = true).
        { apply existsb_exists. exists n. split; [ exact Hin | ].
          unfold Inbox.owned. now rewrite H1, H2, !Z.eqb_refl. }
        congruence. }
      split; [ discriminate | ].
      split; [ apply Hrefl | ]. split; [ apply Hrefl' | reflexivity ].
  - split; [ split; [ discriminate | intros [H _]; discriminate ] | ].
    split; [ discriminate | ].
    split; [ apply Hrefl | ]. split; [ apply Hrefl' | reflexivity ].
Qed.

Lemma in_firstn {A : Type} (n : nat) (l : list A) (x : A) :
  In x (firstn n l) -> In x l.
Proof.
  intro H. rewrite <- (firstn_skipn n l). apply in_or_app. now left.
Qed.

Lemma newer_first_total (a b : Inbox.Note) :
  Inbox.newer_first a b = true \/ Inbox.newer_first b a = true.
Proof. unfold Inbox.newer_first. rewrite !Z.leb_le. lia. Qed.

Lemma newer_first_trans (a b e : Inbox.Note) :
  Inbox.newer_first a b = true -> Inbox.newer_first b e = true ->
  Inbox.newer_first a e = true.
Proof. unfold Inbox.newer_first. rewrite !Z.leb_le. lia. Qed.

(** X16.  [get_user_notifications] returns at most [limit] notifications,
    all of the given user, newest first, and they are the newest the user
    has: together with the ones left out they are the user's notifications,
    and none left out is newer than one returned.  When the store fails the
    list is empty. *)
Theorem user_notifications_are_the_newest (notes : list Inbox.Note) (user : Z)
    (limit : nat) :
  let listed := Inbox.get_user_notifications true notes user limit in
  (List.length listed <= limit)%nat
  /\ (forall n, In n listed -> In n notes /\ Inbox.user_id n = user)
  /\ StronglySorted (fun a b => Inbox.created_at b <= Inbox.created_at a) listed
  /\ (exists left_out,
        Permutation (listed ++ left_out)
          (filter (fun n => Inbox.user_id n =? user) notes)
        /\ forall n m, In n listed -> In m left_out ->
                       Inbox.created_at m <= Inbox.created_at n)
  /\ Inbox.get_user_notifications false notes user limit = [].
Proof.
  intro listed. subst listed. unfold Inbox.get_user_notifications.
  set (mine := filter (fun n => Inbox.user_id n =? user) notes).
  pose proof (sort_by_sorted Inbox.newer_first newer_first_total newer_first_trans mine)
    as Hsorted.
  split; [ apply firstn_le_length | ].
  split; [ | split; [ | split; [ | reflexivity ] ] ].
  - intros n Hn. apply in_firstn in Hn. apply sort_by_in in Hn.
    subst mine. apply filter_In in Hn. now rewrite Z.eqb_eq in Hn.
  - apply sorted_firstn.
    clear - Hsorted. induction Hsorted as [ | a l Hl IH Ha ]; constructor; auto.
    rewrite Forall_forall in *. intros x Hx. apply Z.leb_le. now apply Ha.
  - exists (skipn limit (sort_by Inbox.newer_first mine)). split.
    + rewrite firstn_skipn. apply sort_by_perm.
    + intros n m Hn Hm. apply Z.leb_le.
      exact (sorted_firstn_skipn _ _ Hsorted limit n m Hn Hm).
Qed.

(** ** Dashboards *)

Lemma percentage_le_total (a b : LowEntry) :
  percentage_le a b = true \/ percentage_le b a = true.
Proof.
  unfold percentage_le. rewrite !Qle_bool_iff.
  destruct (Qlt_le_dec (num_val (low_percentage b)) (num_val (low_percentage a)))
    as [ H | H ]; [ right; now apply Qlt_le_weak | now left ].
Qed.

Lemma percentage_le_trans (a b e : LowEntry) :
  percentage_le a b = true -> percentage_le b e = true -> percentage_le a e = true.
Proof. unfold percentage_le. rewrite !Qle_bool_iff. apply Qle_trans. Qed.

Lemma low_attendance_candidates_in (db : Orm.Db) (courses : list Course.t)
    (e : LowEntry) :
  In e (low_attendance_candidates db courses)
  <-> In (low_course e) courses
      /\ In (low_student e) (active_students db)
      /\ low_percentage e
         = Orm.get_attendance_percentage db (User.id (low_student e))
             (Course.id (low_course e)) None None
      /\ py_lt (PyInt 0) (low_percentage e) = true
      /\ py_lt (low_percentage e) (PyInt 75) = true.
Proof.
  unfold low_attendance_candidates. rewrite in_flat_map. split.
  - intros (course & Hc & Hin). apply in_flat_map in Hin.
    destruct Hin as (student & Hs & Hin).
    destruct (py_lt (PyInt 0) _ && py_lt _ (PyInt 75)) eqn:E; [ | destruct Hin ].
    destruct Hin as [ <- | [] ]. simpl. apply andb_true_iff in E. tauto.
  - intros (Hc & Hs & Hp & H0 & H75). exists (low_course e). split; [ exact Hc | ].
    apply in_flat_map. exists (low_student e). split; [ exact Hs | ].
    rewrite <- Hp, H0, H75. simpl. left. now destruct e.
Qed.

(** X17.  The faculty dashboard's list of low attendance holds at most ten
    entries; each is an active student and one of the given courses with
    the student's percentage for it, strictly between 0 and 75, so a
    student without rows, or with no class attended, is never listed; the
    entries come lowest percentage first, and they are the lowest: no
    student and course that qualify and are left out have a lower
    percentage than a listed one. *)
Theorem dashboard_lists_the_ten_lowest (db : Orm.Db) (courses : list Course.t) :
  let listed := low_attendance_students db courses in
  (List.length listed <= 10)%nat
  /\ (forall e, In e listed ->
        In (low_course e) courses
        /\ In (low_student e) (active_students db)
        /\ low_percentage e
           = Orm.get_attendance_percentage db (User.id (low_student e))
               (Course.id (low_course e)) None None
        /\ (0 < num_val (low_percentage e) < 75)%Q)
  /\ StronglySorted
       (fun a b => (num_val (low_percentage a) <= num_val (low_percentage b))%Q)
       listed
  /\ exists left_out,
       Permutation (listed ++ left_out) (low_attendance_candidates db courses)
       /\ forall e o, In e listed -> In o left_out ->
                      (num_val (low_percentage e) <= num_val (low_percentage o))%Q.
Proof.
  intro listed. subst listed. unfold low_attendance_students.
  set (cands := low_attendance_candidates db courses).
  pose proof (sort_by_sorted percentage_le percentage_le_total percentage_le_trans cands)
    as Hsorted.
  split; [ apply firstn_le_length | ].
  split; [ | split ].
  - intros e He. apply in_firstn in He. apply sort_by_in in He.
    subst cands. apply low_attendance_candidates_in in He.
    destruct He as (H1 & H2 & H3 & H4 & H5).
    unfold py_lt in H4, H5. rewrite Qlt_bool_iff in H4, H5.
    repeat split; assumption.
  - apply sorted_firstn.
    clear - Hsorted. induction Hsorted as [ | a l Hl IH Ha ]; constructor; auto.
    rewrite Forall_forall in *. intros x Hx.
    apply Qle_bool_iff. now apply Ha.
  - exists (skipn 10 (sort_by percentage_le cands)). split.
    + rewrite firstn_skipn. apply sort_by_perm.
    + intros e o He Ho. apply Qle_bool_iff.
      exact (sorted_firstn_skipn _ _ Hsorted 10%nat e o He Ho).
Qed.

Lemma count_filter_imp {A : Type} (f g : A -> bool) (l : list A) :
  (forall a, f a = true -> g a = true) ->
  count (filter f l) <= count (filter g l).
Proof.
  intro H. unfold count. apply Nat2Z.inj_le.
  induction l as [ | a l IH ]; cbn [filter]; [ lia | ].
  destruct (f a) eqn:Ef.
  - rewrite (H a Ef). cbn [List.length]. lia.
  - destruct (g a); cbn [List.length]; lia.
Qed.

(** X18.  The student dashboard of app.py measures a student against all
    the rows of a course, whoever they belong to: a course of the table
    with at least one row is listed with the student's Present rows
    divided by all those rows, and it is flagged low whenever the student's
    own rows are fewer than three quarters of them, whatever their
    statuses. *)
Theorem legacy_dashboard_counts_everybodys_rows (db : Legacy.Db) (student : Z)
    (course : Course.t) :
  In course (Legacy.courses db) ->
  let total := dashboard_total db (Course.id course) in
  let present := dashboard_present db student (Course.id course) in
  let own := count (filter (fun a => (Attendance.student_user_id a =? student)
                                     && (Attendance.course_id a =? Course.id course))
                      (Legacy.attendance db)) in
  0 < total ->
  present <= own <= total
  /\ exists row,
       In row (student_dashboard db student)
       /\ row_course_name row = Course.name course
       /\ row_percentage row = percent_of present total
       /\ (row_is_low row = true <-> 100 * present < 75 * total)
       /\ (4 * own < 3 * total -> row_is_low row = true).
Proof.
  intros Hin total present own Htotal.
  assert (Hle : present <= own <= total).
  { subst present own total. unfold dashboard_present, dashboard_total.
    split; apply count_filter_imp; intros a Ha;
      apply andb_true_iff in Ha; tauto. }
  split; [ exact Hle | ].
  exists (mkDashboardRow (Course.name course) (percent_of present total)
            (py_lt (percent_of present total) (PyInt 75))).
  pose proof (percent_below_75 present total Htotal) as Hiff.
  cbn [row_course_name row_percentage row_is_low]. repeat split; try apply Hiff.
  - unfold student_dashboard. apply in_flat_map. exists course.
    split; [ exact Hin | ]. fold total present.
    apply Z.ltb_lt in Htotal. rewrite Htotal. now left.
  - intro H. apply Hiff. lia.
Qed.

(** The statement above for Alice and Maths: two of the four rows are hers. *)
Lemma legacy_dashboard_counts_everybodys_rows_at_alice :
  exists row,
    In row (student_dashboard Scenario.legacy_db 1)
    /\ row_course_name row = "Maths"%string
    /\ row_is_low row = true.
Proof.
  destruct (legacy_dashboard_counts_everybodys_rows Scenario.legacy_db 1
              Scenario.maths (or_introl eq_refl) eq_refl)
    as (_ & row & Hin & Hname & _ & _ & Hlow).
  exists row. repeat split; [ exact Hin | exact Hname | ].
  apply Hlow. reflexivity.
Defined.

(** ** Accounts *)

Lemma sql_max_bound (column : list (option Z)) (v : Z) :
  In (Some v) column -> exists m, sql_max column = Some m /\ v <= m.
Proof.
  induction column as [ | [ x | ] column IH ]; simpl; [ intros [] | | ].
  - intros [ H | H ].
    + injection H as ->. destruct (sql_max column) as [ m | ].
      * exists (Z.max v m). split; [ reflexivity | lia ].
      * exists v. split; [ reflexivity | lia ].
    + destruct (IH H) as (m & -> & Hm). exists (Z.max x m).
      split; [ reflexivity | lia ].
  - intros [ H | H ]; [ discriminate | now apply IH ].
Qed.

(** X19.  The identifier [register] and [manage_users] give a new student
    or faculty member is larger than every identifier in the column, hence
    in use by nobody; it is 1 when the column holds no identifier. *)
Theorem next_id_is_fresh (column : list (option Z)) :
  (forall v, In (Some v) column -> v < next_id column)
  /\ ~ In (Some (next_id column)) column
  /\ (sql_max column = None -> next_id column = 1).
Proof.
  assert (H : forall v, In (Some v) column -> v < next_id column).
  { intros v Hv. destruct (sql_max_bound column v Hv) as (m & Hm & Hle).
    unfold next_id. rewrite Hm. destruct (m =? 0) eqn:E; [ | lia ].
    apply Z.eqb_eq in E. lia. }
  split; [ exact H | split ].
  - intro Hin. apply H in Hin. lia.
  - intro Hnone. unfold next_id. now rewrite Hnone.
Qed.

(** ** More on the alerting passes *)

(** X20.  Whatever the store and the mail transport do, every notifier call
    of the pass of services.py carries the percentage of the student it is
    for, over the window of the pass, and that percentage is strictly
    between zero and the configured threshold. *)
Theorem every_alert_is_for_low_attendance (env : Orm.Env) (mail : Orm.Notifier)
    (db : Orm.Db) (c : Z) (sd ed : option Z) (call : AlertCall) :
  In call (Orm.emails (Orm.check_and_send_alerts env mail db c sd ed)) ->
  alert_percentage call
  = Orm.get_attendance_percentage db (alert_user call) c
      (fst (Orm.alert_window env sd ed)) (snd (Orm.alert_window env sd ed))
  /\ (0 < num_val (alert_percentage call)
      < num_val (ATTENDANCE_THRESHOLD (Orm.cfg env)))%Q
  /\ Orm.percentage_query db (alert_user call) c
       (fst (Orm.alert_window env sd ed)) (snd (Orm.alert_window env sd ed)) <> [].
Proof.
  intro Hin. apply pass_calls in Hin. destruct Hin as (Hpct & Hlt & Hgt).
  split; [ exact Hpct | ]. split.
  - unfold py_gt, py_lt in *. rewrite !Qlt_bool_iff in *. auto.
  - apply positive_percentage_has_rows. now rewrite <- Hpct.
Qed.

(** The statement above for the call the small school's pass makes. *)
Lemma every_alert_is_for_low_attendance_at_alice :
  (0 < num_val (PyFloat (100 # 2)) < num_val (ATTENDANCE_THRESHOLD Scenario.config))%Q.
Proof.
  refine (proj1 (proj2
            (every_alert_is_for_low_attendance Scenario.env Scenario.mail_ok
               Scenario.orm_db 10 Scenario.window_start Scenario.window_end
               (mkAlertCall 1 "alice@bit.edu" "Alice" "Maths" (PyFloat (100 # 2)))
               _))).
  vm_compute. left. reflexivity.
Defined.

Lemma legacy_pass_reads_period (db db' : Legacy.Db) (c : Z) :
  Legacy.users db' = Legacy.users db ->
  Legacy.courses db' = Legacy.courses db ->
  (forall s, Legacy.stats_rows db' s c = Legacy.stats_rows db s c) ->
  Legacy.check_and_send_alerts db' c = Legacy.check_and_send_alerts db c.
Proof.
  intros Hu Hc Hrows. unfold Legacy.check_and_send_alerts. rewrite Hu, Hc.
  destruct (find _ (Legacy.courses db)) as [ course | ]; [ | reflexivity ].
  induction (filter _ (Legacy.users db)) as [ | u students IH ];
    cbn [Legacy.alert_loop]; [ reflexivity | ].
  rewrite IH. f_equal.
  unfold Legacy.alert_student, Legacy.stats_total, Legacy.stats_present.
  now rewrite Hrows.
Qed.

(** X21.  The pass of app.py looks at the fixed period only: recording
    attendance for a day outside 2025-07-25 .. 2025-08-08, for any course
    and any students, changes nothing in whom the pass alerts, for any
    course. *)
Theorem legacy_alerts_ignore_days_outside_period (db : Legacy.Db) (form : TakeForm)
    (c : Z) :
  form_date form < Legacy.PERIOD_START_DATE
  \/ Legacy.PERIOD_END_DATE < form_date form ->
  Legacy.check_and_send_alerts (fst (Legacy.take_attendance db form)) c
  = Legacy.check_and_send_alerts db c.
Proof.
  intro Hout. apply legacy_pass_reads_period; try reflexivity.
  intro s. unfold Legacy.stats_rows. simpl.
  rewrite legacy_loop_shape, filter_app.
  rewrite (proj2 (filter_nil_iff _ (form_rows _ _ _ _))), app_nil_r.
  - apply filter_absorb. intros a Ha. apply negb_true_iff.
    destruct (submitted _ _ _ a) eqn:Es; [ exfalso | reflexivity ].
    unfold submitted in Es. rewrite !andb_true_iff, !Z.eqb_eq in Es.
    rewrite !andb_true_iff, !Z.leb_le in Ha. lia.
  - intros a Ha.
    apply (form_rows_submitted _ _ _ (all_students form)) in Ha; [ | auto ].
    unfold submitted in Ha. rewrite !andb_true_iff, !Z.eqb_eq in Ha.
    destruct ((_ && _) && _) eqn:E; [ exfalso | reflexivity ].
    rewrite !andb_true_iff, !Z.leb_le in E. lia.
Qed.

(** The statement above for a form dated 2024-01-15. *)
Lemma legacy_alerts_ignore_days_outside_period_at_school :
  Legacy.check_and_send_alerts
    (fst (Legacy.take_attendance Scenario.legacy_db (mkTakeForm 10 738900 [1; 2] [])))
    10
  = Legacy.check_and_send_alerts Scenario.legacy_db 10.
Proof.
  apply (legacy_alerts_ignore_days_outside_period Scenario.legacy_db
           (mkTakeForm 10 738900 [1; 2] []) 10).
  left. reflexivity.
Defined.

(** ** Summaries over adjacent windows *)

Lemma count_filter_split {A : Type} (f g h : A -> bool) (l : list A) :
  (forall a, f a = g a || h a) ->
  (forall a, g a && h a = false) ->
  count (filter f l) = count (filter g l) + count (filter h l).
Proof.
  intros Hor Hdisj. unfold count.
  induction l as [ | a l IH ]; cbn [filter List.length]; [ reflexivity | ].
  rewrite (Hor a). specialize (Hdisj a).
  destruct (g a), (h a); cbn [orb List.length]; try discriminate; lia.
Qed.

Lemma in_window_split (first mid last : Z) (a : Attendance.t) :
  first <= mid + 1 -> mid <= last ->
  Orm.in_window (Some first) (Some last) a
  = Orm.in_window (Some first) (Some mid) a
    || Orm.in_window (Some (mid + 1)) (Some last) a
  /\ Orm.in_window (Some first) (Some mid) a
     && Orm.in_window (Some (mid + 1)) (Some last) a = false.
Proof.
  intros H1 H2. unfold Orm.in_window.
  destruct (first <=? Attendance.date a) eqn:E1;
    destruct (Attendance.date a <=? last) eqn:E2;
    destruct (Attendance.date a <=? mid) eqn:E3;
    destruct (mid + 1 <=? Attendance.date a) eqn:E4;
    try (split; reflexivity);
    rewrite ?Z.leb_le, ?Z.leb_gt in *; lia.
Qed.

(** X22.  The counts of the course summary add up over adjacent windows:
    for a day [mid] between [first - 1] and [last], the total, present and
    absent counts over [first .. last] are the sums of those over
    [first .. mid] and over [mid + 1 .. last]. *)
Theorem course_summary_adds_over_adjacent_windows (db : Orm.Db) (c : Z)
    (first mid last : Z) :
  first <= mid + 1 ->
  mid <= last ->
  let whole := Orm.course_get_attendance_summary db c (Some first) (Some last) in
  let early := Orm.course_get_attendance_summary db c (Some first) (Some mid) in
  let late := Orm.course_get_attendance_summary db c (Some (mid + 1)) (Some last) in
  Orm.total_records whole = Orm.total_records early + Orm.total_records late
  /\ Orm.present_records whole = Orm.present_records early + Orm.present_records late
  /\ Orm.absent_records whole = Orm.absent_records early + Orm.absent_records late.
Proof.
  intros H1 H2 whole early late.
  assert (Htotal : Orm.total_records whole
                   = Orm.total_records early + Orm.total_records late).
  { subst whole early late. unfold Orm.course_get_attendance_summary. simpl.
    apply count_filter_split; intro a;
      now destruct (in_window_split first mid last a H1 H2). }
  assert (Hpresent : Orm.present_records whole
                     = Orm.present_records early + Orm.present_records late).
  { subst whole early late. unfold Orm.course_get_attendance_summary. simpl.
    set (R := filter (fun a => Attendance.course_id a =? c) (Orm.attendance db)).
    rewrite !filter_filter. apply count_filter_split; intro a;
      destruct (in_window_split first mid last a H1 H2) as [Hor Hdisj].
    - rewrite Hor.
      destruct (Orm.in_window (Some first) (Some mid) a),
        (Orm.in_window (Some (mid + 1)) (Some last) a),
        (Attendance.is_present a); reflexivity.
    - destruct (Orm.in_window (Some first) (Some mid) a),
        (Orm.in_window (Some (mid + 1)) (Some last) a),
        (Attendance.is_present a); simpl in *; congruence. }
  split; [ exact Htotal | split; [ exact Hpresent | ] ].
  subst whole early late. unfold Orm.course_get_attendance_summary in *.
  simpl in *. lia.
Qed.

(** The statement above for Monday and Tuesday of the small school. *)
Lemma course_summary_adds_over_adjacent_windows_at_school :
  Orm.total_records
    (Orm.course_get_attendance_summary Scenario.orm_db 10
       (Some Scenario.monday) (Some Scenario.tuesday))
  = Orm.total_records
      (Orm.course_get_attendance_summary Scenario.orm_db 10
         (Some Scenario.monday) (Some Scenario.monday))
    + Orm.total_records
        (Orm.course_get_attendance_summary Scenario.orm_db 10
           (Some (Scenario.monday + 1)) (Some Scenario.tuesday)).
Proof.
  refine (proj1 (course_summary_adds_over_adjacent_windows Scenario.orm_db 10
                   Scenario.monday Scenario.monday Scenario.tuesday _ _)).
  - vm_compute. discriminate.
  - vm_compute. discriminate.
Defined.
